(** * Amazon Product Price Alert: a shallow embedding of
      [amazon_price_change.py] and the properties of its control flow.

    The script is sequential glue around three external services (the
    marketplace lookup, the SMS provider and an SMTP server).  The embedding
    keeps the script's own functions ([Config.from_env], [send_sms],
    [send_email], [get_product_info], [check_price_and_notify], [main]) and
    models
    - [os.environ] as a finite map from strings to strings, a string
      being the UTF-8 bytes of a Python [str],
    - Python floats as IEEE-754 binary64 values ([spec_float], 53/1024),
    - exceptions as values of an error monad, with the class hierarchy that
      the [except] clauses of the script inspect,
    - the outside world as a record of responses, and every observable
      action (a printed line, an outbound call) as an entry of a trace. *)

From Stdlib Require Import ZArith Ascii String Floats.SpecFloat.
From Stdlib Require Import Numbers.DecimalString.
From stdpp Require Import base option list strings gmap.

Set Warnings "-register-all".
Open Scope Z_scope.

(** ** Unicode

    A Python string is modelled by its UTF-8 bytes, as [os.environ] and
    [load_dotenv] decode them; a byte that is not part of a well-formed
    sequence stands for the lone surrogate that the [surrogateescape]
    error handler puts in its place.  The character tables are those of
    Unicode 14.0, the database of CPython 3.11. *)

Module Unicode.

Definition continuation (b : N) : bool := ((128 <=? b) && (b <=? 191))%N.

(** The bounds of the second byte after the first byte [b0] of a sequence
    of three or four bytes: they exclude the forms that are too long, the
    surrogates and the code points above U+10FFFF. *)
Definition second_byte_ok (b0 b1 : N) : bool :=
  (if b0 =? 224 then (160 <=? b1) && (b1 <=? 191)
   else if b0 =? 237 then (128 <=? b1) && (b1 <=? 159)
   else if b0 =? 240 then (144 <=? b1) && (b1 <=? 191)
   else if b0 =? 244 then (128 <=? b1) && (b1 <=? 143)
   else continuation b1)%N.

(** The code point that starts [s] and the number of bytes that encode
    it; [None] when [s] does not start with a well-formed sequence. *)
Definition decode (s : list ascii) : option (N * nat) :=
  match N_of_ascii <$> s with
  | [] => None
  | b0 :: bs =>
      if (b0 <? 128)%N then Some (b0, 1%nat)
      else if ((194 <=? b0) && (b0 <=? 223))%N then
        match bs with
        | b1 :: _ =>
            if continuation b1
            then Some (((b0 - 192) * 64 + (b1 - 128))%N, 2%nat)
            else None
        | _ => None
        end
      else if ((224 <=? b0) && (b0 <=? 239))%N then
        match bs with
        | b1 :: b2 :: _ =>
            if second_byte_ok b0 b1 && continuation b2
            then Some ((((b0 - 224) * 64 + (b1 - 128)) * 64 + (b2 - 128))%N,
                       3%nat)
            else None
        | _ => None
        end
      else if ((240 <=? b0) && (b0 <=? 244))%N then
        match bs with
        | b1 :: b2 :: b3 :: _ =>
            if second_byte_ok b0 b1 && continuation b2 && continuation b3
            then Some (((((b0 - 240) * 64 + (b1 - 128)) * 64 + (b2 - 128)) * 64
                        + (b3 - 128))%N, 4%nat)
            else None
        | _ => None
        end
      else None
  end.

(** The character at the head of a non-empty [s], with the bytes that
    stand for it. *)
Definition head_char (c : ascii) (s : list ascii) : N * nat :=
  match decode (c :: s) with
  | Some r => r
  | None => ((56320 + N_of_ascii c)%N, 1%nat)
  end.

(** The code points above 127 for which [str.isspace] holds. *)
Definition spaces : list N :=
  [ 133; 160; 5760; 8192; 8193; 8194; 8195; 8196; 8197; 8198;
    8199; 8200; 8201; 8202; 8232; 8233; 8239; 8287; 12288 ]%N.

Definition is_space (cp : N) : bool := bool_decide (cp ∈ spaces).

(** The code points of the digit zero of every run of ten decimal digits
    above 127 (general category Nd). *)
Definition digit_zeros : list N :=
  [ 1632; 1776; 1984; 2406; 2534; 2662; 2790; 2918;
    3046; 3174; 3302; 3430; 3558; 3664; 3792; 3872;
    4160; 4240; 6112; 6160; 6470; 6608; 6784; 6800;
    6992; 7088; 7232; 7248; 42528; 43216; 43264; 43472;
    43504; 43600; 44016; 65296; 66720; 68912; 69734; 69872;
    69942; 70096; 70384; 70736; 70864; 71248; 71360; 71472;
    71904; 72016; 72784; 73040; 73120; 92768; 92864; 93008;
    120782; 120792; 120802; 120812; 120822; 123200; 123632; 125264;
    130032 ]%N.

(** The value of a decimal digit. *)
Definition decimal (cp : N) : option N :=
  (λ zero, (cp - zero)%N)
    <$> List.find (λ zero, (zero <=? cp) && (cp <? zero + 10))%N digit_zeros.

(** The ranges of the code points above 127 for which [str.isprintable]
    fails. *)
Definition not_printable : list (N * N) :=
  [ (128, 160); (173, 173); (888, 889); (896, 899);
    (907, 907); (909, 909); (930, 930); (1328, 1328);
    (1367, 1368); (1419, 1420); (1424, 1424); (1480, 1487);
    (1515, 1518); (1525, 1541); (1564, 1564); (1757, 1757);
    (1806, 1807); (1867, 1868); (1970, 1983); (2043, 2044);
    (2094, 2095); (2111, 2111); (2140, 2141); (2143, 2143);
    (2155, 2159); (2191, 2199); (2274, 2274); (2436, 2436);
    (2445, 2446); (2449, 2450); (2473, 2473); (2481, 2481);
    (2483, 2485); (2490, 2491); (2501, 2502); (2505, 2506);
    (2511, 2518); (2520, 2523); (2526, 2526); (2532, 2533);
    (2559, 2560); (2564, 2564); (2571, 2574); (2577, 2578);
    (2601, 2601); (2609, 2609); (2612, 2612); (2615, 2615);
    (2618, 2619); (2621, 2621); (2627, 2630); (2633, 2634);
    (2638, 2640); (2642, 2648); (2653, 2653); (2655, 2661);
    (2679, 2688); (2692, 2692); (2702, 2702); (2706, 2706);
    (2729, 2729); (2737, 2737); (2740, 2740); (2746, 2747);
    (2758, 2758); (2762, 2762); (2766, 2767); (2769, 2783);
    (2788, 2789); (2802, 2808); (2816, 2816); (2820, 2820);
    (2829, 2830); (2833, 2834); (2857, 2857); (2865, 2865);
    (2868, 2868); (2874, 2875); (2885, 2886); (2889, 2890);
    (2894, 2900); (2904, 2907); (2910, 2910); (2916, 2917);
    (2936, 2945); (2948, 2948); (2955, 2957); (2961, 2961);
    (2966, 2968); (2971, 2971); (2973, 2973); (2976, 2978);
    (2981, 2983); (2987, 2989); (3002, 3005); (3011, 3013);
    (3017, 3017); (3022, 3023); (3025, 3030); (3032, 3045);
    (3067, 3071); (3085, 3085); (3089, 3089); (3113, 3113);
    (3130, 3131); (3141, 3141); (3145, 3145); (3150, 3156);
    (3159, 3159); (3163, 3164); (3166, 3167); (3172, 3173);
    (3184, 3190); (3213, 3213); (3217, 3217); (3241, 3241);
    (3252, 3252); (3258, 3259); (3269, 3269); (3273, 3273);
    (3278, 3284); (3287, 3292); (3295, 3295); (3300, 3301);
    (3312, 3312); (3315, 3327); (3341, 3341); (3345, 3345);
    (3397, 3397); (3401, 3401); (3408, 3411); (3428, 3429);
    (3456, 3456); (3460, 3460); (3479, 3481); (3506, 3506);
    (3516, 3516); (3518, 3519); (3527, 3529); (3531, 3534);
    (3541, 3541); (3543, 3543); (3552, 3557); (3568, 3569);
    (3573, 3584); (3643, 3646); (3676, 3712); (3715, 3715);
    (3717, 3717); (3723, 3723); (3748, 3748); (3750, 3750);
    (3774, 3775); (3781, 3781); (3783, 3783); (3790, 3791);
    (3802, 3803); (3808, 3839); (3912, 3912); (3949, 3952);
    (3992, 3992); (4029, 4029); (4045, 4045); (4059, 4095);
    (4294, 4294); (4296, 4300); (4302, 4303); (4681, 4681);
    (4686, 4687); (4695, 4695); (4697, 4697); (4702, 4703);
    (4745, 4745); (4750, 4751); (4785, 4785); (4790, 4791);
    (4799, 4799); (4801, 4801); (4806, 4807); (4823, 4823);
    (4881, 4881); (4886, 4887); (4955, 4956); (4989, 4991);
    (5018, 5023); (5110, 5111); (5118, 5119); (5760, 5760);
    (5789, 5791); (5881, 5887); (5910, 5918); (5943, 5951);
    (5972, 5983); (5997, 5997); (6001, 6001); (6004, 6015);
    (6110, 6111); (6122, 6127); (6138, 6143); (6158, 6158);
    (6170, 6175); (6265, 6271); (6315, 6319); (6390, 6399);
    (6431, 6431); (6444, 6447); (6460, 6463); (6465, 6467);
    (6510, 6511); (6517, 6527); (6572, 6575); (6602, 6607);
    (6619, 6621); (6684, 6685); (6751, 6751); (6781, 6782);
    (6794, 6799); (6810, 6815); (6830, 6831); (6863, 6911);
    (6989, 6991); (7039, 7039); (7156, 7163); (7224, 7226);
    (7242, 7244); (7305, 7311); (7355, 7356); (7368, 7375);
    (7419, 7423); (7958, 7959); (7966, 7967); (8006, 8007);
    (8014, 8015); (8024, 8024); (8026, 8026); (8028, 8028);
    (8030, 8030); (8062, 8063); (8117, 8117); (8133, 8133);
    (8148, 8149); (8156, 8156); (8176, 8177); (8181, 8181);
    (8191, 8207); (8232, 8239); (8287, 8303); (8306, 8307);
    (8335, 8335); (8349, 8351); (8385, 8399); (8433, 8447);
    (8588, 8591); (9255, 9279); (9291, 9311); (11124, 11125);
    (11158, 11158); (11508, 11512); (11558, 11558); (11560, 11564);
    (11566, 11567); (11624, 11630); (11633, 11646); (11671, 11679);
    (11687, 11687); (11695, 11695); (11703, 11703); (11711, 11711);
    (11719, 11719); (11727, 11727); (11735, 11735); (11743, 11743);
    (11870, 11903); (11930, 11930); (12020, 12031); (12246, 12271);
    (12284, 12288); (12352, 12352); (12439, 12440); (12544, 12548);
    (12592, 12592); (12687, 12687); (12772, 12783); (12831, 12831);
    (42125, 42127); (42183, 42191); (42540, 42559); (42744, 42751);
    (42955, 42959); (42962, 42962); (42964, 42964); (42970, 42993);
    (43053, 43055); (43066, 43071); (43128, 43135); (43206, 43213);
    (43226, 43231); (43348, 43358); (43389, 43391); (43470, 43470);
    (43482, 43485); (43519, 43519); (43575, 43583); (43598, 43599);
    (43610, 43611); (43715, 43738); (43767, 43776); (43783, 43784);
    (43791, 43792); (43799, 43807); (43815, 43815); (43823, 43823);
    (43884, 43887); (44014, 44015); (44026, 44031); (55204, 55215);
    (55239, 55242); (55292, 63743); (64110, 64111); (64218, 64255);
    (64263, 64274); (64280, 64284); (64311, 64311); (64317, 64317);
    (64319, 64319); (64322, 64322); (64325, 64325); (64451, 64466);
    (64912, 64913); (64968, 64974); (64976, 65007); (65050, 65055);
    (65107, 65107); (65127, 65127); (65132, 65135); (65141, 65141);
    (65277, 65280); (65471, 65473); (65480, 65481); (65488, 65489);
    (65496, 65497); (65501, 65503); (65511, 65511); (65519, 65531);
    (65534, 65535); (65548, 65548); (65575, 65575); (65595, 65595);
    (65598, 65598); (65614, 65615); (65630, 65663); (65787, 65791);
    (65795, 65798); (65844, 65846); (65935, 65935); (65949, 65951);
    (65953, 65999); (66046, 66175); (66205, 66207); (66257, 66271);
    (66300, 66303); (66340, 66348); (66379, 66383); (66427, 66431);
    (66462, 66462); (66500, 66503); (66518, 66559); (66718, 66719);
    (66730, 66735); (66772, 66775); (66812, 66815); (66856, 66863);
    (66916, 66926); (66939, 66939); (66955, 66955); (66963, 66963);
    (66966, 66966); (66978, 66978); (66994, 66994); (67002, 67002);
    (67005, 67071); (67383, 67391); (67414, 67423); (67432, 67455);
    (67462, 67462); (67505, 67505); (67515, 67583); (67590, 67591);
    (67593, 67593); (67638, 67638); (67641, 67643); (67645, 67646);
    (67670, 67670); (67743, 67750); (67760, 67807); (67827, 67827);
    (67830, 67834); (67868, 67870); (67898, 67902); (67904, 67967);
    (68024, 68027); (68048, 68049); (68100, 68100); (68103, 68107);
    (68116, 68116); (68120, 68120); (68150, 68151); (68155, 68158);
    (68169, 68175); (68185, 68191); (68256, 68287); (68327, 68330);
    (68343, 68351); (68406, 68408); (68438, 68439); (68467, 68471);
    (68498, 68504); (68509, 68520); (68528, 68607); (68681, 68735);
    (68787, 68799); (68851, 68857); (68904, 68911); (68922, 69215);
    (69247, 69247); (69290, 69290); (69294, 69295); (69298, 69375);
    (69416, 69423); (69466, 69487); (69514, 69551); (69580, 69599);
    (69623, 69631); (69710, 69713); (69750, 69758); (69821, 69821);
    (69827, 69839); (69865, 69871); (69882, 69887); (69941, 69941);
    (69960, 69967); (70007, 70015); (70112, 70112); (70133, 70143);
    (70162, 70162); (70207, 70271); (70279, 70279); (70281, 70281);
    (70286, 70286); (70302, 70302); (70314, 70319); (70379, 70383);
    (70394, 70399); (70404, 70404); (70413, 70414); (70417, 70418);
    (70441, 70441); (70449, 70449); (70452, 70452); (70458, 70458);
    (70469, 70470); (70473, 70474); (70478, 70479); (70481, 70486);
    (70488, 70492); (70500, 70501); (70509, 70511); (70517, 70655);
    (70748, 70748); (70754, 70783); (70856, 70863); (70874, 71039);
    (71094, 71095); (71134, 71167); (71237, 71247); (71258, 71263);
    (71277, 71295); (71354, 71359); (71370, 71423); (71451, 71452);
    (71468, 71471); (71495, 71679); (71740, 71839); (71923, 71934);
    (71943, 71944); (71946, 71947); (71956, 71956); (71959, 71959);
    (71990, 71990); (71993, 71994); (72007, 72015); (72026, 72095);
    (72104, 72105); (72152, 72153); (72165, 72191); (72264, 72271);
    (72355, 72367); (72441, 72703); (72713, 72713); (72759, 72759);
    (72774, 72783); (72813, 72815); (72848, 72849); (72872, 72872);
    (72887, 72959); (72967, 72967); (72970, 72970); (73015, 73017);
    (73019, 73019); (73022, 73022); (73032, 73039); (73050, 73055);
    (73062, 73062); (73065, 73065); (73103, 73103); (73106, 73106);
    (73113, 73119); (73130, 73439); (73465, 73647); (73649, 73663);
    (73714, 73726); (74650, 74751); (74863, 74863); (74869, 74879);
    (75076, 77711); (77811, 77823); (78895, 82943); (83527, 92159);
    (92729, 92735); (92767, 92767); (92778, 92781); (92863, 92863);
    (92874, 92879); (92910, 92911); (92918, 92927); (92998, 93007);
    (93018, 93018); (93026, 93026); (93048, 93052); (93072, 93759);
    (93851, 93951); (94027, 94030); (94088, 94094); (94112, 94175);
    (94181, 94191); (94194, 94207); (100344, 100351); (101590, 101631);
    (101641, 110575); (110580, 110580); (110588, 110588); (110591, 110591);
    (110883, 110927); (110931, 110947); (110952, 110959); (111356, 113663);
    (113771, 113775); (113789, 113791); (113801, 113807); (113818, 113819);
    (113824, 118527); (118574, 118575); (118599, 118607); (118724, 118783);
    (119030, 119039); (119079, 119080); (119155, 119162); (119275, 119295);
    (119366, 119519); (119540, 119551); (119639, 119647); (119673, 119807);
    (119893, 119893); (119965, 119965); (119968, 119969); (119971, 119972);
    (119975, 119976); (119981, 119981); (119994, 119994); (119996, 119996);
    (120004, 120004); (120070, 120070); (120075, 120076); (120085, 120085);
    (120093, 120093); (120122, 120122); (120127, 120127); (120133, 120133);
    (120135, 120137); (120145, 120145); (120486, 120487); (120780, 120781);
    (121484, 121498); (121504, 121504); (121520, 122623); (122655, 122879);
    (122887, 122887); (122905, 122906); (122914, 122914); (122917, 122917);
    (122923, 123135); (123181, 123183); (123198, 123199); (123210, 123213);
    (123216, 123535); (123567, 123583); (123642, 123646); (123648, 124895);
    (124903, 124903); (124908, 124908); (124911, 124911); (124927, 124927);
    (125125, 125126); (125143, 125183); (125260, 125263); (125274, 125277);
    (125280, 126064); (126133, 126208); (126270, 126463); (126468, 126468);
    (126496, 126496); (126499, 126499); (126501, 126502); (126504, 126504);
    (126515, 126515); (126520, 126520); (126522, 126522); (126524, 126529);
    (126531, 126534); (126536, 126536); (126538, 126538); (126540, 126540);
    (126544, 126544); (126547, 126547); (126549, 126550); (126552, 126552);
    (126554, 126554); (126556, 126556); (126558, 126558); (126560, 126560);
    (126563, 126563); (126565, 126566); (126571, 126571); (126579, 126579);
    (126584, 126584); (126589, 126589); (126591, 126591); (126602, 126602);
    (126620, 126624); (126628, 126628); (126634, 126634); (126652, 126703);
    (126706, 126975); (127020, 127023); (127124, 127135); (127151, 127152);
    (127168, 127168); (127184, 127184); (127222, 127231); (127406, 127461);
    (127491, 127503); (127548, 127551); (127561, 127567); (127570, 127583);
    (127590, 127743); (128728, 128732); (128749, 128751); (128765, 128767);
    (128884, 128895); (128985, 128991); (129004, 129007); (129009, 129023);
    (129036, 129039); (129096, 129103); (129114, 129119); (129160, 129167);
    (129198, 129199); (129202, 129279); (129620, 129631); (129646, 129647);
    (129653, 129655); (129661, 129663); (129671, 129679); (129709, 129711);
    (129723, 129727); (129734, 129743); (129754, 129759); (129768, 129775);
    (129783, 129791); (129939, 129939); (129995, 130031); (130042, 131071);
    (173792, 173823); (177977, 177983); (178206, 178207); (183970, 183983);
    (191457, 194559); (195102, 196607); (201547, 917759); (918000, 1114111) ]%N.

Definition is_printable (cp : N) : bool :=
  negb (existsb (λ r, (r.1 <=? cp) && (cp <=? r.2))%N not_printable).

End Unicode.

(** ** Python floats *)

Module F64.

Definition prec : Z := 53.
Definition emax : Z := 1024.

Definition float : Type := spec_float.

Definition leb (x y : float) : bool := SFleb x y.
Definition ltb (x y : float) : bool := SFltb x y.
Definition sub (x y : float) : float := SFsub prec emax x y.
Definition valid (x : float) : bool := valid_binary prec emax x.

(** The double nearest to [n * 10^e] (ties to even), which is what
    [float("...")] returns for a decimal literal. *)
Definition of_decimal (neg : bool) (n : N) (e : Z) : float :=
  match n with
  | N0 => S754_zero neg
  | Npos p =>
      if 0 <=? e
      then binary_round prec emax neg (p * Z.to_pos (10 ^ e))%positive 0
      else
        let '(q, e', l) :=
          SFdiv_core_binary prec emax (Zpos p) 0 (10 ^ (- e)) 0 in
        binary_round_aux prec emax neg q e' l
  end.

(** *** [format(x, ".2f")] *)

Definition string_of_N (n : N) : string :=
  NilZero.string_of_uint (N.to_uint n).

Definition digit_char (d : N) : ascii := ascii_of_N (48 + d).

(** [round_half_even num den] is the integer nearest to [num / den]. *)
Definition round_half_even (num den : N) : N :=
  let q := (num / den)%N in
  let r := (num mod den)%N in
  match (2 * r ?= den)%N with
  | Lt => q
  | Eq => if N.even q then q else (q + 1)%N
  | Gt => (q + 1)%N
  end.

(** The magnitude [m * 2^e] in hundredths, correctly rounded. *)
Definition cents (m : positive) (e : Z) : N :=
  match e with
  | Zneg k => round_half_even (Npos m * 100) (2 ^ Npos k)
  | _ => (Npos m * 2 ^ Z.to_N e * 100)%N
  end.

Definition fixed2 (c : N) : string :=
  string_of_N (c / 100)
    +:+ "."
    +:+ String (digit_char ((c / 10) mod 10)) (String (digit_char (c mod 10)) "").

Definition format_2f (x : float) : string :=
  match x with
  | S754_nan => "nan"
  | S754_infinity s => if s then "-inf" else "inf"
  | S754_zero s => if s then "-0.00" else "0.00"
  | S754_finite s m e => (if s then "-" else "") +:+ fixed2 (cents m e)
  end.

(** *** [float(s)] for a string [s]

    The string is first brought to ASCII: every Unicode blank becomes a
    space and every Unicode decimal digit its ASCII digit.  The accepted
    syntax is then the one of the Python reference manual: surrounding
    blanks, a sign, then [inf], [infinity] or [nan] in any letter case, or
    a decimal literal with an optional fraction and exponent whose digit
    groups may be separated by single underscores. *)

(** The blanks that [float()] strips from both ends. *)
Definition is_space (c : ascii) : bool :=
  let n := N_of_ascii c in
  ((9 <=? n) && (n <=? 13) || (n =? 32))%N.

Definition is_digit (c : ascii) : bool :=
  let n := N_of_ascii c in ((48 <=? n) && (n <=? 57))%N.

Definition digit_val (c : ascii) : N := (N_of_ascii c - 48)%N.

Definition lower (c : ascii) : ascii :=
  let n := N_of_ascii c in
  if ((65 <=? n) && (n <=? 90))%N then ascii_of_N (n + 32) else c.

(** What [float()] first does to the characters above 127: a blank
    becomes a space and a decimal digit its ASCII digit; any other such
    character makes the string unreadable ([None]). *)
Fixpoint to_ascii_digits (fuel : nat) (s : list ascii)
  : option (list ascii) :=
  match fuel, s with
  | S fuel', c :: s' =>
      let '(cp, k) := Unicode.head_char c s' in
      if (cp <? 128)%N then cons c <$> to_ascii_digits fuel' s'
      else if Unicode.is_space cp
      then cons " "%char <$> to_ascii_digits fuel' (drop k s)
      else
        match Unicode.decimal cp with
        | Some d => cons (digit_char d) <$> to_ascii_digits fuel' (drop k s)
        | None => None
        end
  | _, _ => Some []
  end.

Fixpoint drop_spaces (s : list ascii) : list ascii :=
  match s with
  | c :: s' => if is_space c then drop_spaces s' else s
  | [] => []
  end.

Definition strip (s : list ascii) : list ascii :=
  reverse (drop_spaces (reverse (drop_spaces s))).

(** Underscores are legal only directly between two digits; the legal
    ones are dropped before the literal is read. *)
Fixpoint drop_underscores (prev_digit : bool) (s : list ascii)
  : option (list ascii) :=
  match s with
  | [] => Some []
  | c :: s' =>
      if Ascii.eqb c "_" then
        match s' with
        | d :: _ =>
            if prev_digit && is_digit d then drop_underscores false s'
            else None
        | [] => None
        end
      else cons c <$> drop_underscores (is_digit c) s'
  end.

(** The longest prefix of digits, and the rest. *)
Fixpoint span_digits (s : list ascii) : list ascii * list ascii :=
  match s with
  | c :: s' =>
      if is_digit c
      then let '(ds, r) := span_digits s' in (c :: ds, r)
      else ([], s)
  | [] => ([], [])
  end.

Definition N_of_digits (ds : list ascii) : N :=
  foldl (fun acc c => (10 * acc + digit_val c)%N) 0%N ds.

Definition split_sign (s : list ascii) : bool * list ascii :=
  match s with
  | c :: s' =>
      if Ascii.eqb c "-" then (true, s')
      else if Ascii.eqb c "+" then (false, s')
      else (false, s)
  | [] => (false, [])
  end.

(** [e<sign><digits>] at the end of a literal; [Some 0] when there is no
    exponent part. *)
Definition parse_exponent (s : list ascii) : option Z :=
  match s with
  | [] => Some 0
  | c :: s' =>
      if Ascii.eqb (lower c) "e" then
        let '(neg, r) := split_sign s' in
        match span_digits r with
        | (d :: ds, []) =>
            let v := Z.of_N (N_of_digits (d :: ds)) in
            Some (if neg then - v else v)
        | _ => None
        end
      else None
  end.

Definition parse_decimal (neg : bool) (s : list ascii) : option float :=
  let '(ip, r) := span_digits s in
  let '(fp, r') :=
    match r with
    | c :: r1 => if Ascii.eqb c "." then span_digits r1 else ([], r)
    | [] => ([], [])
    end in
  match ip ++ fp with
  | [] => None
  | ds =>
      ex ← parse_exponent r';
      Some (of_decimal neg (N_of_digits ds) (ex - Z.of_nat (length fp)))
  end.

Definition float_of_string (s : string) : option float :=
  let bytes := list_ascii_of_string s in
  text ← to_ascii_digits (length bytes) bytes;
  let '(neg, body) := split_sign (strip text) in
  let word := string_of_list_ascii (lower <$> body) in
  if bool_decide (word = "inf" ∨ word = "infinity")
  then Some (S754_infinity neg)
  else if bool_decide (word = "nan") then Some S754_nan
  else drop_underscores false body ≫= parse_decimal neg.

(** [float(n)] for an [int]: the nearest double, or [None] when the
    integer is too large for a double. *)
Definition of_int (n : Z) : option float :=
  match binary_normalize prec emax n 0 false with
  | S754_infinity _ => None
  | x => Some x
  end.

End F64.

(** ** Python strings *)

Definition LF : string := String (ascii_of_N 10) "".

(** [needle in hay]. *)
Fixpoint contains (needle hay : string) : bool :=
  String.prefix needle hay
  || match hay with
     | String _ hay' => contains needle hay'
     | EmptyString => false
     end.

Definition hex_digit (n : N) : ascii :=
  if (n <? 10)%N then ascii_of_N (48 + n) else ascii_of_N (87 + n).

Definition backslash : ascii := ascii_of_N 92.
Definition double_quote : ascii := ascii_of_N 34.
Definition single_quote : ascii := ascii_of_N 39.

(** The last [width] hexadecimal digits of [n]. *)
Fixpoint hex (width : nat) (n : N) : string :=
  match width with
  | O => ""
  | S width' => hex width' (n / 16) +:+ String (hex_digit (n mod 16)) ""
  end.

(** One character of [repr(s)] inside quotes [q]: the code point [cp]
    that the bytes [bytes] stand for. *)
Definition repr_char (q : ascii) (cp : N) (bytes : list ascii) : string :=
  if (cp =? 92)%N then String backslash (String backslash "")
  else if (cp =? N_of_ascii q)%N then String backslash (String q "")
  else if (cp =? 9)%N then String backslash "t"
  else if (cp =? 10)%N then String backslash "n"
  else if (cp =? 13)%N then String backslash "r"
  else if ((cp <? 32) || (cp =? 127))%N
  then String backslash (String "x" (hex 2 cp))
  else if ((cp <? 127) || Unicode.is_printable cp)%N
  then string_of_list_ascii bytes
  else if (cp <=? 255)%N then String backslash (String "x" (hex 2 cp))
  else if (cp <=? 65535)%N then String backslash (String "u" (hex 4 cp))
  else String backslash (String "U" (hex 8 cp)).

Fixpoint repr_chars (fuel : nat) (q : ascii) (s : list ascii) : string :=
  match fuel, s with
  | S fuel', c :: s' =>
      let '(cp, k) := Unicode.head_char c s' in
      repr_char q cp (take k s) +:+ repr_chars fuel' q (drop k s)
  | _, _ => ""
  end.

(** [repr(s)]: single quotes unless the string has a single quote and no
    double quote. *)
Definition repr (s : string) : string :=
  let q : ascii :=
    if contains (String single_quote "") s
       && negb (contains (String double_quote "") s)
    then double_quote else single_quote in
  let bytes := list_ascii_of_string s in
  String q (repr_chars (length bytes) q bytes +:+ String q "").

(** ** Exceptions *)

(** The classes below [Exception] that the script or its collaborators
    raise and that its [except] clauses tell apart.  [LibraryError n] is a
    class named [n] that a client library derives directly from
    [Exception]. *)
Inductive exn_class : Type :=
  | Exception
  | LookupError
  | KeyError
  | IndexError
  | ValueError
  | TypeError
  | AttributeError
  | ArithmeticError
  | OverflowError
  | OSError
  | SMTPException
  | SMTPResponseException
  | SMTPAuthenticationError
  | LibraryError (name : string).

#[global] Instance exn_class_eq_dec : EqDecision exn_class.
Proof. solve_decision. Defined.

Definition base_class (c : exn_class) : option exn_class :=
  match c with
  | Exception => None
  | LookupError => Some Exception
  | KeyError => Some LookupError
  | IndexError => Some LookupError
  | ValueError => Some Exception
  | TypeError => Some Exception
  | AttributeError => Some Exception
  | ArithmeticError => Some Exception
  | OverflowError => Some ArithmeticError
  | OSError => Some Exception
  | SMTPException => Some OSError
  | SMTPResponseException => Some SMTPException
  | SMTPAuthenticationError => Some SMTPResponseException
  | LibraryError _ => Some Exception
  end.

(** The class and its ancestors; no chain is longer than five classes. *)
Fixpoint mro_upto (fuel : nat) (c : exn_class) : list exn_class :=
  c :: match fuel, base_class c with
       | S fuel', Some b => mro_upto fuel' b
       | _, _ => []
       end.

Definition mro : exn_class → list exn_class := mro_upto 5.

Definition issubclass (c d : exn_class) : bool := bool_decide (d ∈ mro c).

(** An instance of [Exception]: its class, what [str(e)] gives, and its
    [__cause__]. *)
Inductive exception : Type :=
  Exc { exc_class : exn_class; exc_str : string; exc_cause : option exception }.

Definition isinstance (e : exception) (c : exn_class) : bool :=
  issubclass (exc_class e) c.

(** What a [raise] carries: an [Exception], or [SystemExit(code)], which is
    outside the [Exception] hierarchy and passes every handler of the
    script. *)
Inductive raised : Type :=
  | Raised (e : exception)
  | SystemExit (code : Z).

Inductive result (E A : Type) : Type :=
  | Ok (a : A)
  | Error (e : E).
Arguments Ok {E A} a.
Arguments Error {E A} e.

(** ** The outside world and the trace of a run *)

Record lookup_request : Type := {
  lookup_access_key : string;
  lookup_secret_key : string;
  lookup_associate_tag : string;
  lookup_region : string;
  lookup_item_id : string;
}.

Record sms_request : Type := {
  sms_account_sid : string;
  sms_auth_token : string;
  sms_body : string;
  sms_to : string;
  sms_from : string;
}.

(** [MIMEText(text, subtype)] attached to a [MIMEMultipart] message. *)
Record MIMEText : Type := { mime_text : string; mime_subtype : string }.

Record MIMEMultipart : Type := {
  header_From : string;
  header_To : string;
  header_Subject : string;
  payload : list MIMEText;
}.

Record smtp_request : Type := {
  smtp_host : string;
  smtp_port : Z;
  smtp_user : string;
  smtp_password : string;
  smtp_from_addr : string;
  smtp_to_addrs : string;
  smtp_message : MIMEMultipart;
}.

(** A value of the marketplace response that the script converts with
    [float(...)]: [None], a float, a string, an int, or any other object,
    given by what [float()] makes of it (the float that its [__float__]
    returns, or the exception that the conversion raises). *)
Inductive pyval : Type :=
  | PyNone
  | PyFloat (x : F64.float)
  | PyStr (s : string)
  | PyInt (n : Z)
  | PyObject (conversion : result exception F64.float).

(** The part of a marketplace item that the script reads; an attribute
    that the response leaves out is [None], the display value of a title
    included. *)
Record Price : Type := { amount : pyval }.
Record Listing : Type := { price : option Price }.
Record Offers : Type := { listings : option (list Listing) }.
Record Title : Type := { display_value : option string }.
Record ItemInfo : Type := { title : option Title }.
Record Product : Type := {
  item_info : option ItemInfo;
  offers : option Offers;
}.

(** What a run can observe of its surroundings: the process environment
    (after [load_dotenv()]) and the answer of each collaborator to a
    request.  A collaborator answers or raises an [Exception]. *)
Record World : Type := {
  environ : gmap string string;
  amazon_get_items : lookup_request → result exception (list Product);
  twilio_messages_create : sms_request → result exception string;
  smtp_sendmail : smtp_request → result exception unit;
}.

Inductive event : Type :=
  | Stdout (line : string)
  | Lookup (req : lookup_request)
  | Sms (req : sms_request)
  | Smtp (req : smtp_request).

Definition trace : Type := list event.

(** ** Computations: a trace and a result or a raised exception *)

Definition M (A : Type) : Type := trace * result raised A.

#[global] Instance M_ret : MRet M := λ A a, ([], Ok a).

#[global] Instance M_bind : MBind M := λ A B k m,
  match m with
  | (t, Ok a) => (t ++ (k a).1, (k a).2)
  | (t, Error e) => (t, Error e)
  end.

Definition raise {A} (e : raised) : M A := ([], Error e).
Definition emit (ev : event) : M unit := ([ev], Ok tt).
Definition print (line : string) : M unit := emit (Stdout line).

(** The answer of a collaborator, inside a computation. *)
Definition answer {A} (r : result exception A) : M A :=
  match r with
  | Ok a => mret a
  | Error e => raise (Raised e)
  end.

(** The first [except C as e: h] clause whose class [C] the exception is
    an instance of. *)
Fixpoint select_handler {A} (hs : list (exn_class * (exception → M A)))
    (e : exception) : option (M A) :=
  match hs with
  | [] => None
  | (c, h) :: hs' =>
      if isinstance e c then Some (h e) else select_handler hs' e
  end.

Definition try_except {A} (body : M A)
    (hs : list (exn_class * (exception → M A))) : M A :=
  match body with
  | (t, Error (Raised e)) =>
      match select_handler hs e with
      | Some h => (t ++ h.1, h.2)
      | None => body
      end
  | _ => body
  end.

(** The exit status of the process for the outcome of [main()]: an
    uncaught exception ends the interpreter with status 1. *)
Definition exit_status {A} (m : M A) : Z :=
  match m.2 with
  | Ok _ => 0
  | Error (SystemExit code) => code
  | Error (Raised _) => 1
  end.

Definition sms_calls (t : trace) : list sms_request :=
  omap (λ ev, match ev with Sms r => Some r | _ => None end) t.
Definition smtp_calls (t : trace) : list smtp_request :=
  omap (λ ev, match ev with Smtp r => Some r | _ => None end) t.
Definition lookup_calls (t : trace) : list lookup_request :=
  omap (λ ev, match ev with Lookup r => Some r | _ => None end) t.
Definition printed (t : trace) : list string :=
  omap (λ ev, match ev with Stdout s => Some s | _ => None end) t.

(** ** The script *)

(** What an f-string shows for a value that is a string or [None]. *)
Definition str_ (x : option string) : string := default "None" x.

Record Config : Type := {
  amazon_access_key : string;
  amazon_secret_key : string;
  amazon_associate_tag : string;
  amazon_region : string;
  twilio_account_sid : string;
  twilio_auth_token : string;
  twilio_from_number : string;
  twilio_to_number : string;
  gmail_user : string;
  gmail_app_password : string;
  email_from : string;
  email_to : string;
  product_id : string;
  expected_price : F64.float;
}.

(** [os.environ[key]] *)
Definition environ_item (w : World) (key : string) : M string :=
  match environ w !! key with
  | Some v => mret v
  | None => raise (Raised (Exc KeyError (repr key) None))
  end.

(** [os.getenv(key, default)] *)
Definition getenv (w : World) (key fallback : string) : string :=
  default fallback (environ w !! key).

(** [float(x)] *)
Definition float_ (x : pyval) : M F64.float :=
  match x with
  | PyFloat f => mret f
  | PyStr s =>
      match F64.float_of_string s with
      | Some f => mret f
      | None =>
          raise (Raised (Exc ValueError
                           ("could not convert string to float: " +:+ repr s)
                           None))
      end
  | PyInt n =>
      match F64.of_int n with
      | Some f => mret f
      | None =>
          raise (Raised (Exc OverflowError
                           "int too large to convert to float" None))
      end
  | PyObject conversion => answer conversion
  | PyNone =>
      raise (Raised (Exc TypeError
        "float() argument must be a string or a real number, not 'NoneType'"
        None))
  end.

(** [Config.from_env()]: the keyword arguments are evaluated in the order
    in which they are written. *)
Definition from_env (w : World) : M Config :=
  amazon_access_key ← environ_item w "AMAZON_ACCESS_KEY";
  amazon_secret_key ← environ_item w "AMAZON_SECRET_KEY";
  amazon_associate_tag ← environ_item w "AMAZON_ASSOCIATE_TAG";
  let amazon_region := getenv w "AMAZON_REGION" "US" in
  twilio_account_sid ← environ_item w "TWILIO_ACCOUNT_SID";
  twilio_auth_token ← environ_item w "TWILIO_AUTH_TOKEN";
  twilio_from_number ← environ_item w "TWILIO_FROM_NUMBER";
  twilio_to_number ← environ_item w "TWILIO_TO_NUMBER";
  gmail_user ← environ_item w "GMAIL_USER";
  gmail_app_password ← environ_item w "GMAIL_APP_PASSWORD";
  email_from ← environ_item w "EMAIL_FROM";
  email_to ← environ_item w "EMAIL_TO";
  product_id ← environ_item w "AMAZON_PRODUCT_ID";
  expected_price_str ← environ_item w "EXPECTED_PRICE";
  expected_price ← float_ (PyStr expected_price_str);
  mret {|
    amazon_access_key := amazon_access_key;
    amazon_secret_key := amazon_secret_key;
    amazon_associate_tag := amazon_associate_tag;
    amazon_region := amazon_region;
    twilio_account_sid := twilio_account_sid;
    twilio_auth_token := twilio_auth_token;
    twilio_from_number := twilio_from_number;
    twilio_to_number := twilio_to_number;
    gmail_user := gmail_user;
    gmail_app_password := gmail_app_password;
    email_from := email_from;
    email_to := email_to;
    product_id := product_id;
    expected_price := expected_price;
  |}.

(** The keys read with [os.environ[...]], in the order of evaluation. *)
Definition required_keys : list string :=
  [ "AMAZON_ACCESS_KEY"; "AMAZON_SECRET_KEY"; "AMAZON_ASSOCIATE_TAG";
    "TWILIO_ACCOUNT_SID"; "TWILIO_AUTH_TOKEN"; "TWILIO_FROM_NUMBER";
    "TWILIO_TO_NUMBER"; "GMAIL_USER"; "GMAIL_APP_PASSWORD"; "EMAIL_FROM";
    "EMAIL_TO"; "AMAZON_PRODUCT_ID"; "EXPECTED_PRICE" ].

Definition sms_request_of (config : Config) (message_body : string)
  : sms_request :=
  {| sms_account_sid := twilio_account_sid config;
     sms_auth_token := twilio_auth_token config;
     sms_body := message_body;
     sms_to := twilio_to_number config;
     sms_from := twilio_from_number config |}.

(** [send_sms(config, message_body)] *)
Definition send_sms (w : World) (config : Config) (message_body : string)
  : M (option string) :=
  try_except
    (let req := sms_request_of config message_body in
     emit (Sms req);;
     sid ← answer (twilio_messages_create w req);
     print ("SMS sent successfully. SID: " +:+ sid);;
     mret (Some sid))
    [ (Exception, λ e,
        print ("Failed to send SMS: " +:+ exc_str e);;
        mret None) ].

Definition email_subject : string := "Amazon Price Alert - Price Drop!".

(** The body that [send_email] builds with its f-string. *)
Definition email_body (config : Config) (title : option string) (price : F64.float)
  : string :=
  LF +:+ "    Good news! The price has dropped on a product you're tracking."
  +:+ LF +:+ LF
  +:+ "    Product: " +:+ str_ title +:+ LF
  +:+ "    Current Price: $" +:+ F64.format_2f price +:+ LF
  +:+ "    Your Target Price: $" +:+ F64.format_2f (expected_price config)
  +:+ LF +:+ LF
  +:+ "    This is a great time to make your purchase!" +:+ LF
  +:+ "    ".

Definition email_message (config : Config) (title : option string)
    (price : F64.float) : MIMEMultipart :=
  {| header_From := email_from config;
     header_To := email_to config;
     header_Subject := email_subject;
     payload := [ {| mime_text := email_body config title price;
                     mime_subtype := "plain" |} ] |}.

Definition smtp_request_of (config : Config) (title : option string)
    (price : F64.float) : smtp_request :=
  {| smtp_host := "smtp.gmail.com";
     smtp_port := 587;
     smtp_user := gmail_user config;
     smtp_password := gmail_app_password config;
     smtp_from_addr := email_from config;
     smtp_to_addrs := email_to config;
     smtp_message := email_message config title price |}.

(** [send_email(config, title, price)]; the session (EHLO, STARTTLS, EHLO,
    login, sendmail) is one exchange with the mail server. *)
Definition send_email (w : World) (config : Config) (title : option string)
    (price : F64.float) : M bool :=
  let req := smtp_request_of config title price in
  try_except
    (emit (Smtp req);;
     answer (smtp_sendmail w req);;
     print "Email sent successfully!";;
     mret true)
    [ (SMTPAuthenticationError, λ _,
        print "Failed to send email: Authentication error. Check your credentials.";;
        mret false);
      (SMTPException, λ e,
        print ("Failed to send email: SMTP error - " +:+ exc_str e);;
        mret false);
      (Exception, λ e,
        print ("Failed to send email: " +:+ exc_str e);;
        mret false) ].

(** [x.name] for an attribute value [x = o] that may be [None]. *)
Definition non_none {A} (name : string) (o : option A) : M A :=
  match o with
  | Some a => mret a
  | None =>
      raise (Raised (Exc AttributeError
                       ("'NoneType' object has no attribute '" +:+ name +:+ "'")
                       None))
  end.

(** [l[0]] for a list [l]. *)
Definition item0 {A} (l : list A) : M A :=
  match l with
  | a :: _ => mret a
  | [] => raise (Raised (Exc IndexError "list index out of range" None))
  end.

(** [l[0]] for an attribute value [l = o] that may be [None]. *)
Definition subscript0 {A} (o : option (list A)) : M A :=
  match o with
  | Some l => item0 l
  | None =>
      raise (Raised (Exc TypeError "'NoneType' object is not subscriptable"
                       None))
  end.

Definition lookup_request_of (config : Config) : lookup_request :=
  {| lookup_access_key := amazon_access_key config;
     lookup_secret_key := amazon_secret_key config;
     lookup_associate_tag := amazon_associate_tag config;
     lookup_region := amazon_region config;
     lookup_item_id := product_id config |}.

(** [get_product_info(config)] *)
Definition get_product_info (w : World) (config : Config)
  : M (option string * F64.float) :=
  let req := lookup_request_of config in
  emit (Lookup req);;
  products ← answer (amazon_get_items w req);
  product ← item0 products;
  info ← non_none "title" (item_info product);
  title_field ← non_none "display_value" (title info);
  let title := display_value title_field in
  product_offers ← non_none "listings" (offers product);
  listing ← subscript0 (listings product_offers);
  listing_price ← non_none "amount" (price listing);
  price ← float_ (amount listing_price);
  mret (title, price).

Definition notification_msg (title : option string) (price : F64.float) : string :=
  "Price Alert: " +:+ str_ title +:+ " is now $" +:+ F64.format_2f price +:+ "!".

(** [check_price_and_notify(config)] *)
Definition check_price_and_notify (w : World) (config : Config) : M unit :=
  print "Fetching product information...";;
  '(title, price) ← get_product_info w config;
  print ("Product: " +:+ str_ title);;
  print ("Current Price: $" +:+ F64.format_2f price);;
  print ("Target Price: $" +:+ F64.format_2f (expected_price config));;
  if F64.leb price (expected_price config) then
    print (LF +:+ "Price is at or below target! Sending notifications...");;
    send_sms w config (notification_msg title price);;
    send_email w config title price;;
    mret tt
  else
    print (LF +:+ "Price is still above target by $"
           +:+ F64.format_2f (F64.sub price (expected_price config))).

(** [main()] *)
Definition main (w : World) : M unit :=
  try_except
    (config ← from_env w;
     check_price_and_notify w config)
    [ (KeyError, λ e,
        print ("Missing required environment variable: " +:+ exc_str e);;
        print "Please check your .env file or environment configuration.";;
        raise (SystemExit 1));
      (Exception, λ e,
        print ("An error occurred: " +:+ exc_str e);;
        raise (SystemExit 1)) ].

(** The lines that [main] prints for an exception that reaches it. *)
Definition diagnostic (e : exception) : trace :=
  if isinstance e KeyError then
    [ Stdout ("Missing required environment variable: " +:+ exc_str e);
      Stdout "Please check your .env file or environment configuration." ]
  else [ Stdout ("An error occurred: " +:+ exc_str e) ].

(** The lines that [check_price_and_notify] prints for a snapshot. *)
Definition report (config : Config) (title : option string) (price : F64.float)
  : trace :=
  [ Stdout ("Product: " +:+ str_ title);
    Stdout ("Current Price: $" +:+ F64.format_2f price);
    Stdout ("Target Price: $" +:+ F64.format_2f (expected_price config)) ].

(** The configuration that holds the values of the environment and the
    expected price [p]. *)
Definition environ_config (w : World) (p : F64.float) : Config :=
  let value key := default "" (environ w !! key) in
  {| amazon_access_key := value "AMAZON_ACCESS_KEY";
     amazon_secret_key := value "AMAZON_SECRET_KEY";
     amazon_associate_tag := value "AMAZON_ASSOCIATE_TAG";
     amazon_region := getenv w "AMAZON_REGION" "US";
     twilio_account_sid := value "TWILIO_ACCOUNT_SID";
     twilio_auth_token := value "TWILIO_AUTH_TOKEN";
     twilio_from_number := value "TWILIO_FROM_NUMBER";
     twilio_to_number := value "TWILIO_TO_NUMBER";
     gmail_user := value "GMAIL_USER";
     gmail_app_password := value "GMAIL_APP_PASSWORD";
     email_from := value "EMAIL_FROM";
     email_to := value "EMAIL_TO";
     product_id := value "AMAZON_PRODUCT_ID";
     expected_price := p |}.

(** The display value of the title of an item, which may be [None], when
    the item has a title object; the price amount of its first listing,
    when the item has one. *)
Definition title_of (p : Product) : option (option string) :=
  info ← item_info p; t ← title info; Some (display_value t).

Definition amount_of (p : Product) : option pyval :=
  o ← offers p; ls ← listings o; l ← head ls; pr ← price l;
  Some (amount pr).

(** [e] is an instance of [c] raised from [cause]. *)
Definition wraps (c : exn_class) (e cause : exception) : Prop :=
  isinstance e c = true ∧ exc_cause e = Some cause.


(** *** The specification's reading of three contracts

    The definitions below follow the words of the specification, not the
    script; they are compared with the script further down. *)

Definition positive_finite (x : F64.float) : bool :=
  match x with
  | S754_finite false _ _ => true
  | _ => false
  end.

(** The environments that the specification wants construction to
    reject: the expected price does not read as a positive finite number,
    or a required value is the empty string. *)
Definition spec_rejects (w : World) : Prop :=
  (∃ s, environ w !! "EXPECTED_PRICE" = Some s
        ∧ ∀ p, F64.float_of_string s = Some p → positive_finite p = false)
  ∨ (∃ key, key ∈ required_keys ∧ environ w !! key = Some "").

Definition spec_validating_construction : Prop :=
  ∀ w, spec_rejects w → ∀ config, (from_env w).2 ≠ Ok config.

(** The lookups that the specification wants to fail and that do fail:
    the remote call raises, there is no item, or the first item lacks its
    item info, its title object, its offers, its listings or a first
    listing, the price object of that listing, or its price amount.  A
    title object whose display value is [None] is not among them. *)
Definition lookup_fails (w : World) (config : Config) : Prop :=
  match amazon_get_items w (lookup_request_of config) with
  | Error _ => True
  | Ok [] => True
  | Ok (p :: _) =>
      title_of p = None ∨ amount_of p = None ∨ amount_of p = Some PyNone
  end.


Definition spec_wrapping_lookup : Prop :=
  ∀ w config cause,
    amazon_get_items w (lookup_request_of config) = Error cause →
    ∃ e, (get_product_info w config).2 = Error (Raised e)
         ∧ wraps LookupError e cause.

(** ** Sample surroundings

    Concrete environments and collaborators on which the statements below
    are instantiated. *)

Definition sample_environ (expected : string) : gmap string string :=
  list_to_map
    [ ("AMAZON_ACCESS_KEY", "AKIAEXAMPLE"); ("AMAZON_SECRET_KEY", "secret");
      ("AMAZON_ASSOCIATE_TAG", "tag-20"); ("TWILIO_ACCOUNT_SID", "AC0001");
      ("TWILIO_AUTH_TOKEN", "token"); ("TWILIO_FROM_NUMBER", "+15550001");
      ("TWILIO_TO_NUMBER", "+15550002"); ("GMAIL_USER", "me@gmail.com");
      ("GMAIL_APP_PASSWORD", "app-password"); ("EMAIL_FROM", "me@gmail.com");
      ("EMAIL_TO", "you@example.org"); ("AMAZON_PRODUCT_ID", "B00EXAMPLE");
      ("EXPECTED_PRICE", expected) ].

Definition sample_product (name : string) (value : pyval) : Product :=
  {| item_info := Some {| title := Some {| display_value := Some name |} |};
     offers :=
       Some {| listings := Some [ {| price := Some {| amount := value |} |} ] |}
  |}.

Definition sample_world (env : gmap string string)
    (items : result exception (list Product))
    (sms : result exception string) (mail : result exception unit) : World :=
  {| environ := env;
     amazon_get_items := λ _, items;
     twilio_messages_create := λ _, sms;
     smtp_sendmail := λ _, mail |}.

Definition sample_config (expected : F64.float) : Config :=
  {| amazon_access_key := "AKIAEXAMPLE";
     amazon_secret_key := "secret";
     amazon_associate_tag := "tag-20";
     amazon_region := "US";
     twilio_account_sid := "AC0001";
     twilio_auth_token := "token";
     twilio_from_number := "+15550001";
     twilio_to_number := "+15550002";
     gmail_user := "me@gmail.com";
     gmail_app_password := "app-password";
     email_from := "me@gmail.com";
     email_to := "you@example.org";
     product_id := "B00EXAMPLE";
     expected_price := expected |}.

(** The doubles nearest to 50, 49.99 and 50.01. *)
Definition f50_00 : F64.float := S754_finite false 7036874417766400 (-47).
Definition f49_99 : F64.float := S754_finite false 7035467042882847 (-47).
Definition f50_01 : F64.float := S754_finite false 7038281792649953 (-47).

(** The double -5. *)
Definition f_minus_5 : F64.float := S754_finite true 5629499534213120 (-50).

(** A run with target 50.00 in which the marketplace reports [value] for
    the item "Widget". *)
Definition world_priced (value : F64.float)
    (sms : result exception string) (mail : result exception unit) : World :=
  sample_world (sample_environ "50.00")
    (Ok [sample_product "Widget" (PyFloat value)]) sms mail.

Definition provider_rejection : exception :=
  Exc (LibraryError "TwilioRestException") "HTTP 401 error: Authenticate" None.

Definition throttled : exception :=
  Exc (LibraryError "TooManyRequests") "Requests limit reached" None.

Definition world_lookup_error : World :=
  sample_world (sample_environ "50.00") (Error throttled) (Ok "SM1") (Ok tt).

Definition world_without_mail_user : World :=
  sample_world (delete "GMAIL_USER" (sample_environ "50.00"))
    (Ok [sample_product "Widget" (PyFloat f49_99)]) (Ok "SM1") (Ok tt).

Definition world_negative_target : World :=
  sample_world (sample_environ "-5")
    (Ok [sample_product "Widget" (PyFloat f49_99)]) (Ok "SM1") (Ok tt).

(** ** Further definitions for the properties of whole runs *)

(** The first required key, in the order of evaluation, that the
    environment does not define. *)
Definition first_missing_key (w : World) : option string :=
  List.find (λ key, bool_decide (environ w !! key = None)) required_keys.

Definition is_nan (x : F64.float) : bool :=
  match x with
  | S754_nan => true
  | _ => false
  end.

(** The sign of a float; a NaN has none. *)
Definition signbit (x : F64.float) : bool :=
  match x with
  | S754_zero s | S754_infinity s | S754_finite s _ _ => s
  | S754_nan => false
  end.

(** ** Properties of the building blocks *)

Section Floats.

Lemma compare_cont_flip (m1 m2 : positive) :
  Pos.compare_cont Eq m2 m1 = CompOpp (Pos.compare_cont Eq m1 m2).
Proof. by rewrite Pos.compare_cont_antisym. Qed.

(** [y < x] excludes [x <= y]. *)
Lemma ltb_not_leb (x y : F64.float) :
  F64.ltb y x = true → F64.leb x y = false.
Proof.
  unfold F64.ltb, F64.leb, SFltb, SFleb.
  destruct x as [sx|sx| |sx mx ex], y as [sy|sy| |sy my ey]; cbn;
    try discriminate; try done;
    try (by destruct sx); try (by destruct sy); try (by destruct sx, sy).
  destruct sx, sy; try done.
  - rewrite (Z.compare_antisym ey ex), (compare_cont_flip my mx).
    destruct (ey ?= ex); cbn; try done.
    by destruct (Pos.compare_cont Eq my mx).
  - rewrite (Z.compare_antisym ey ex), (compare_cont_flip my mx).
    destruct (ey ?= ex); cbn; try done.
    by destruct (Pos.compare_cont Eq my mx).
Qed.

(** [round_half_even num den] is within one half of [num / den], and even
    when [num / den] is halfway between two integers. *)
Lemma round_half_even_nearest (num den : N) :
  den ≠ 0%N →
  (2 * num <= 2 * den * F64.round_half_even num den + den
   ∧ 2 * den * F64.round_half_even num den <= 2 * num + den)%N.
Proof.
  intros Hden. unfold F64.round_half_even.
  pose proof (N.div_mod num den Hden) as Hdiv.
  pose proof (N.mod_lt num den Hden) as Hlt.
  set (q := (num / den)%N) in *. set (r := (num mod den)%N) in *.
  destruct (N.compare_spec (2 * r) den) as [H|H|H];
    [destruct (N.even q)|..]; nia.
Qed.

Lemma round_half_even_tie (num den : N) :
  den ≠ 0%N → (2 * (num mod den) = den)%N →
  N.even (F64.round_half_even num den) = true.
Proof.
  intros Hden Htie. unfold F64.round_half_even.
  rewrite Htie, N.compare_refl.
  destruct (N.even (num / den)) eqn:E; [done|].
  by rewrite N.even_add, E.
Qed.

(** The hundredths of [m * 2^e]: exact for a non-negative exponent, and
    within half a hundredth of the value otherwise. *)
Lemma cents_nearest (m : positive) (e : Z) :
  match e with
  | Zneg k =>
      (2 * (Npos m * 100) <= 2 * 2 ^ Npos k * F64.cents m e + 2 ^ Npos k
       ∧ 2 * 2 ^ Npos k * F64.cents m e <= 2 * (Npos m * 100) + 2 ^ Npos k)%N
  | _ => F64.cents m e = (Npos m * 2 ^ Z.to_N e * 100)%N
  end.
Proof.
  destruct e as [|k|k]; [done..|].
  apply round_half_even_nearest. by apply N.pow_nonzero.
Qed.

Lemma digit_char_digit (d : N) :
  (d < 10)%N →
  F64.is_digit (F64.digit_char d) = true
  ∧ F64.digit_val (F64.digit_char d) = d.
Proof.
  intros Hd. unfold F64.is_digit, F64.digit_val, F64.digit_char.
  rewrite N_ascii_embedding by lia.
  split; [|lia].
  apply andb_true_iff. split; apply N.leb_le; lia.
Qed.

(** A finite number is printed with a sign, the digits of its whole part,
    a point and exactly two digits, which together make up its
    hundredths. *)
Lemma format_2f_two_decimals (s : bool) (m : positive) (e : Z) :
  ∃ d1 d2,
    F64.format_2f (S754_finite s m e)
      = (if s then "-" else "")
        +:+ F64.string_of_N (F64.cents m e / 100)
        +:+ "." +:+ String d1 (String d2 "")
    ∧ F64.is_digit d1 = true ∧ F64.is_digit d2 = true
    ∧ F64.cents m e
      = (100 * (F64.cents m e / 100)
         + 10 * F64.digit_val d1 + F64.digit_val d2)%N.
Proof.
  set (c := F64.cents m e).
  assert ((c / 10) mod 10 < 10)%N as H1 by (by apply N.mod_lt).
  assert (c mod 10 < 10)%N as H2 by (by apply N.mod_lt).
  destruct (digit_char_digit _ H1) as [Hd1 Hv1].
  destruct (digit_char_digit _ H2) as [Hd2 Hv2].
  exists (F64.digit_char ((c / 10) mod 10)), (F64.digit_char (c mod 10)).
  split; [done|]. split; [done|]. split; [done|].
  rewrite Hv1, Hv2.
  pose proof (N.div_mod c 10 ltac:(done)) as Hc.
  pose proof (N.div_mod (c / 10) 10 ltac:(done)) as Hc'.
  rewrite N.Div0.div_div in Hc'. change (10 * 10)%N with 100%N in Hc'. lia.
Qed.

(** [float()] on a few literals, against the doubles that CPython
    returns for them. *)
Example float_tenth :
  F64.float_of_string "0.1" = Some (S754_finite false 7205759403792794 (-56)).
Proof. vm_compute. reflexivity. Qed.

Example float_syntax :
  F64.float_of_string "  -1_0.5e-1 " = F64.float_of_string "-1.05"
  ∧ F64.float_of_string "1E+2" = F64.float_of_string "100"
  ∧ F64.float_of_string "-Infinity" = Some (S754_infinity true)
  ∧ F64.float_of_string "1e400" = Some (S754_infinity false)
  ∧ F64.float_of_string "1e-400" = Some (S754_zero false)
  ∧ F64.float_of_string "4.9e-324" = Some (S754_finite false 1 (-1074))
  ∧ F64.float_of_string "" = None
  ∧ F64.float_of_string "." = None
  ∧ F64.float_of_string "1__0" = None
  ∧ F64.float_of_string "1e" = None
  ∧ F64.float_of_string "$50" = None
  ∧ F64.float_of_string "fifty" = None.
Proof. vm_compute. repeat split. Qed.

(** [float()] strips the ASCII blanks 9..13 and 32 only, reads the
    Unicode blanks and decimal digits, and rejects every other character
    above 127 and every byte that is not well-formed UTF-8. *)
Example float_unicode :
  let str bytes := string_of_list_ascii (ascii_of_N <$> bytes) in
  F64.float_of_string (str [28; 53; 48]%N) = None
  ∧ F64.float_of_string (str [53; 48; 31]%N) = None
  ∧ F64.float_of_string (str [194; 160; 53; 48]%N) = Some f50_00
  ∧ F64.float_of_string (str [239; 188; 149; 239; 188; 144]%N) = Some f50_00
  ∧ F64.float_of_string (str [53; 48; 226; 128; 168]%N) = Some f50_00
  ∧ F64.float_of_string (str [53; 226; 130; 172]%N) = None
  ∧ F64.float_of_string (str [53; 48; 255]%N) = None
  ∧ F64.float_of_string (str [192; 181; 48]%N) = None.
Proof. vm_compute. repeat split. Qed.

(** [repr()] escapes the characters that are not printable, the lone
    surrogates of undecodable bytes included, and keeps the others. *)
Example repr_unicode :
  let str bytes := string_of_list_ascii (ascii_of_N <$> bytes) in
  repr (str [194; 160; 53; 48]%N) = "'\xa050'"
  ∧ repr (str [28; 53; 48]%N) = "'\x1c50'"
  ∧ repr (str [226; 128; 168]%N) = "'\u2028'"
  ∧ repr (str [255]%N) = "'\udcff'"
  ∧ repr (str [99; 97; 102; 195; 169]%N)
    = str [39; 99; 97; 102; 195; 169; 39]%N
  ∧ repr "it's" = str [34; 105; 116; 39; 115; 34]%N.
Proof. vm_compute. repeat split. Qed.

(** [format(x, ".2f")] rounds the exact value of the double, ties to
    even. *)
Example format_2f_rounding :
  F64.format_2f <$> F64.float_of_string "0.125" = Some "0.12"
  ∧ F64.format_2f <$> F64.float_of_string "0.375" = Some "0.38"
  ∧ F64.format_2f <$> F64.float_of_string "2.675" = Some "2.67"
  ∧ F64.format_2f <$> F64.float_of_string "-0.001" = Some "-0.00"
  ∧ F64.format_2f <$> F64.float_of_string "1e22"
    = Some "10000000000000000000000.00"
  ∧ F64.format_2f <$> F64.float_of_string "nan" = Some "nan"
  ∧ F64.format_2f <$> F64.float_of_string "-inf" = Some "-inf".
Proof. vm_compute. repeat split. Qed.

End Floats.

Section Strings.





End Strings.

Section Exceptions.

Lemma isinstance_Exception (e : exception) : isinstance e Exception = true.
Proof. destruct e as [c s o]. by destruct c. Qed.

Lemma KeyError_is_LookupError : issubclass KeyError LookupError = true.
Proof. done. Qed.

End Exceptions.

(** ** The notifiers *)

Section Notifiers.
Context (w : World) (config : Config).

Lemma send_sms_cases (message_body : string) :
  let req := sms_request_of config message_body in
  send_sms w config message_body =
  match twilio_messages_create w req with
  | Ok sid =>
      ([Sms req; Stdout ("SMS sent successfully. SID: " +:+ sid)], Ok (Some sid))
  | Error e => ([Sms req; Stdout ("Failed to send SMS: " +:+ exc_str e)], Ok None)
  end.
Proof.
  intros req. unfold send_sms. fold req.
  destruct (twilio_messages_create w req) as [sid|e]; cbn; [done|].
  by rewrite isinstance_Exception.
Qed.

Lemma send_email_cases (title : option string) (price : F64.float) :
  let req := smtp_request_of config title price in
  send_email w config title price =
  match smtp_sendmail w req with
  | Ok _ => ([Smtp req; Stdout "Email sent successfully!"], Ok true)
  | Error e =>
      ([Smtp req;
        Stdout
          (if isinstance e SMTPAuthenticationError then
             "Failed to send email: Authentication error. Check your credentials."
           else if isinstance e SMTPException then
             "Failed to send email: SMTP error - " +:+ exc_str e
           else "Failed to send email: " +:+ exc_str e)],
       Ok false)
  end.
Proof.
  intros req. unfold send_email. fold req.
  destruct (smtp_sendmail w req) as [[]|e]; cbn; [done|].
  destruct (isinstance e SMTPAuthenticationError); [done|].
  destruct (isinstance e SMTPException); [done|].
  by rewrite isinstance_Exception.
Qed.

(** Each notifier returns; it sends one request and prints one line. *)
Lemma send_sms_returns (message_body : string) :
  ∃ line r,
    send_sms w config message_body =
      ([Sms (sms_request_of config message_body); Stdout line], Ok r).
Proof.
  rewrite send_sms_cases.
  destruct (twilio_messages_create w _); eauto.
Qed.

Lemma send_email_returns (title : option string) (price : F64.float) :
  ∃ line r,
    send_email w config title price =
      ([Smtp (smtp_request_of config title price); Stdout line], Ok r).
Proof.
  rewrite send_email_cases.
  destruct (smtp_sendmail w _) as [[]|e]; eauto.
Qed.

End Notifiers.

(** ** The lookup *)

Section Lookup.
Context (w : World) (config : Config).

(** Case analysis on every value that the lookup inspects. *)
Ltac lookup_cases :=
  unfold get_product_info, non_none, subscript0, item0, float_, answer;
  cbn; repeat (case_match; cbn in *; simplify_eq); cbn.

(** The lookup makes exactly one request, whatever its outcome. *)
Lemma get_product_info_trace :
  (get_product_info w config).1 = [Lookup (lookup_request_of config)].
Proof. lookup_cases; done. Qed.

(** A lookup that fails does so with an [Exception]. *)
Lemma get_product_info_raised (t : trace) (r : raised) :
  get_product_info w config = (t, Error r) → ∃ e, r = Raised e.
Proof. lookup_cases; intros; simplify_eq; eauto. Qed.

(** The three failures that the specification names, and the exception
    that the lookup raises for each. *)
Lemma lookup_failure_raises :
  lookup_fails w config →
  ∃ e,
    get_product_info w config
      = ([Lookup (lookup_request_of config)], Error (Raised e))
    ∧ match amazon_get_items w (lookup_request_of config) with
      | Error cause => e = cause
      | Ok [] => e = Exc IndexError "list index out of range" None
      | Ok (_ :: _) =>
          exc_class e ∈ [AttributeError; TypeError; IndexError]
          ∧ exc_cause e = None
      end.
Proof.
  unfold lookup_fails, get_product_info, title_of, amount_of.
  destruct (amazon_get_items w _) as [[|p ps]|cause];
    [by eexists..| |by eexists].
  destruct p as [info product_offers]. cbn [item_info offers].
  assert (∀ c s, c ∈ [AttributeError; TypeError; IndexError] →
    ∃ e, (([Lookup (lookup_request_of config)], Error (Raised (Exc c s None)))
            : M (option string * F64.float))
         = ([Lookup (lookup_request_of config)], Error (Raised e))
         ∧ exc_class e ∈ [AttributeError; TypeError; IndexError]
         ∧ exc_cause e = None) as Hraise by (intros; by eexists).
  destruct info as [[[[name]|]]|]; cbn;
    [|intros _; apply Hraise; set_solver..].
  destruct product_offers as [[[[|[[[value]|]] ls]|]]|]; cbn;
    [intros _; apply Hraise; set_solver| |intros _; apply Hraise; set_solver..].
  destruct value as [|x|s|n|conversion]; cbn;
    [intros _; apply Hraise; set_solver|..];
    intros [?|[?|?]]; done.
Qed.

End Lookup.

(** ** Loading the configuration *)

(** Reduction of the monad alone; the finite-map lookups stay as they
    are until a case analysis replaces them. *)
Ltac run_monad :=
  cbn [mbind M_bind mret M_ret raise answer emit print fst snd app].

Section Loading.
Context (w : World).

Ltac key_in_required_keys :=
  unfold required_keys;
  repeat first [ apply list_elem_of_here | apply list_elem_of_further ].

(** The lookups of [from_env], in the order in which it makes them; [tac]
    closes the case in which the key is missing. *)
Ltac environ_case k tac :=
  destruct (environ w !! k) eqn:?; run_monad; [|tac k].

Ltac environ_cases tac :=
  unfold from_env, environ_item, float_;
  environ_case "AMAZON_ACCESS_KEY" tac;
  environ_case "AMAZON_SECRET_KEY" tac;
  environ_case "AMAZON_ASSOCIATE_TAG" tac;
  environ_case "TWILIO_ACCOUNT_SID" tac;
  environ_case "TWILIO_AUTH_TOKEN" tac;
  environ_case "TWILIO_FROM_NUMBER" tac;
  environ_case "TWILIO_TO_NUMBER" tac;
  environ_case "GMAIL_USER" tac;
  environ_case "GMAIL_APP_PASSWORD" tac;
  environ_case "EMAIL_FROM" tac;
  environ_case "EMAIL_TO" tac;
  environ_case "AMAZON_PRODUCT_ID" tac;
  environ_case "EXPECTED_PRICE" tac.

(** Loading the configuration prints nothing and calls nobody. *)
Lemma from_env_trace : (from_env w).1 = [].
Proof.
  environ_cases ltac:(fun _ => reflexivity).
  by destruct (F64.float_of_string _).
Qed.

Lemma from_env_raised (t : trace) (r : raised) :
  from_env w = (t, Error r) → ∃ e, r = Raised e.
Proof.
  environ_cases ltac:(fun _ => intros [= <- <-]; eauto).
  destruct (F64.float_of_string _); run_monad; intros [= <- <-]; eauto.
Qed.

(** A missing key is reported by a [KeyError] that names it. *)
Lemma from_env_missing :
  (∃ key, key ∈ required_keys ∧ environ w !! key = None) →
  ∃ key, key ∈ required_keys ∧ environ w !! key = None
       ∧ from_env w = ([], Error (Raised (Exc KeyError (repr key) None))).
Proof.
  intros (key & Hin & Hkey).
  environ_cases
    ltac:(fun k =>
            exists k; split; [key_in_required_keys|];
            split; [assumption|reflexivity]);
    exfalso;
    unfold required_keys in Hin;
    repeat (apply elem_of_cons in Hin as [->|Hin]; [congruence|]);
    by apply elem_of_nil in Hin.
Qed.

(** With every key set, only the expected price is examined. *)
Lemma from_env_complete (s : string) :
  (∀ key, key ∈ required_keys → is_Some (environ w !! key)) →
  environ w !! "EXPECTED_PRICE" = Some s →
  from_env w =
    match F64.float_of_string s with
    | Some p => ([], Ok (environ_config w p))
    | None =>
        ([], Error (Raised (Exc ValueError
                              ("could not convert string to float: " +:+ repr s)
                              None)))
    end.
Proof.
  intros Hall Hs. unfold environ_config.
  environ_cases
    ltac:(fun k =>
            exfalso; destruct (Hall k) as [? ?];
            [key_in_required_keys|congruence]).
  simplify_eq. by destruct (F64.float_of_string s).
Qed.

End Loading.

(** ** The orchestrator *)

Section Orchestrator.
Context (w : World) (config : Config).

Lemma check_lookup_failed (t : trace) (r : raised) :
  get_product_info w config = (t, Error r) →
  check_price_and_notify w config =
    (Stdout "Fetching product information..." :: t, Error r).
Proof. intros H. unfold check_price_and_notify. rewrite H. reflexivity. Qed.

Lemma check_triggered (t : trace) (title : option string) (price : F64.float) :
  get_product_info w config = (t, Ok (title, price)) →
  F64.leb price (expected_price config) = true →
  check_price_and_notify w config =
    (Stdout "Fetching product information..." :: t
       ++ report config title price
       ++ Stdout (LF +:+ "Price is at or below target! Sending notifications...")
       :: (send_sms w config (notification_msg title price)).1
       ++ (send_email w config title price).1,
     Ok tt).
Proof.
  intros H Hle. unfold check_price_and_notify. rewrite H. run_monad.
  rewrite Hle.
  destruct (send_sms_returns w config (notification_msg title price))
    as (l1 & r1 & ->).
  destruct (send_email_returns w config title price) as (l2 & r2 & ->).
  reflexivity.
Qed.

Lemma check_not_triggered (t : trace) (title : option string) (price : F64.float) :
  get_product_info w config = (t, Ok (title, price)) →
  F64.leb price (expected_price config) = false →
  check_price_and_notify w config =
    (Stdout "Fetching product information..." :: t
       ++ report config title price
       ++ [ Stdout (LF +:+ "Price is still above target by $"
                    +:+ F64.format_2f (F64.sub price (expected_price config))) ],
     Ok tt).
Proof.
  intros H Hle. unfold check_price_and_notify. rewrite H. run_monad.
  rewrite Hle. reflexivity.
Qed.

End Orchestrator.

Section Main.
Context (w : World).

(** [main] adds its diagnostic and [SystemExit(1)] to a run that raised,
    and nothing to a run that returned. *)
Lemma main_cases :
  let body := config ← from_env w; check_price_and_notify w config in
  main w =
    match body.2 with
    | Error (Raised e) => (body.1 ++ diagnostic e, Error (SystemExit 1))
    | _ => body
    end.
Proof.
  intros body. unfold main. fold body.
  destruct body as [t [[]|[e|c]]]; try reflexivity.
  unfold try_except, diagnostic. cbn [select_handler snd fst].
  destruct (isinstance e KeyError); [reflexivity|].
  rewrite isinstance_Exception. reflexivity.
Qed.

Lemma main_loaded (config : Config) :
  from_env w = ([], Ok config) →
  main w =
    match (check_price_and_notify w config).2 with
    | Error (Raised e) =>
        ((check_price_and_notify w config).1 ++ diagnostic e,
         Error (SystemExit 1))
    | _ => check_price_and_notify w config
    end.
Proof.
  intros H. rewrite main_cases. rewrite H. run_monad.
  by destruct (check_price_and_notify w config) as [t [[]|[e|c]]].
Qed.

Lemma main_not_loaded (e : exception) :
  from_env w = ([], Error (Raised e)) →
  main w = (diagnostic e, Error (SystemExit 1)).
Proof. intros H. rewrite main_cases. rewrite H. reflexivity. Qed.

End Main.

(** ** Calls in a trace *)

Section Calls.

Lemma diagnostic_calls (e : exception) :
  lookup_calls (diagnostic e) = [] ∧ sms_calls (diagnostic e) = []
  ∧ smtp_calls (diagnostic e) = [].
Proof. unfold diagnostic. by destruct (isinstance e KeyError). Qed.

Lemma lookup_trace_calls (w : World) (config : Config) :
  sms_calls (get_product_info w config).1 = []
  ∧ smtp_calls (get_product_info w config).1 = [].
Proof. by rewrite get_product_info_trace. Qed.

End Calls.

(** ** The claims about the control flow *)

Section Returns.
Context (w : World) (config : Config).

(** A run whose lookup returned a snapshot returns. *)
Lemma check_returns (t : trace) (title : option string) (price : F64.float) :
  get_product_info w config = (t, Ok (title, price)) →
  (check_price_and_notify w config).2 = Ok tt.
Proof.
  intros H. destruct (F64.leb price (expected_price config)) eqn:Hle.
  - by rewrite (check_triggered _ _ _ _ _ H Hle).
  - by rewrite (check_not_triggered _ _ _ _ _ H Hle).
Qed.

Lemma lookup_trace_eq (t : trace) (r : result raised (option string * F64.float)) :
  get_product_info w config = (t, r) → t = [Lookup (lookup_request_of config)].
Proof. intros H. by rewrite <- (get_product_info_trace w config), H. Qed.

(** The calls of a triggered run: one SMS, then one email. *)
Lemma triggered_calls (t : trace) (title : option string) (price : F64.float) :
  get_product_info w config = (t, Ok (title, price)) →
  F64.leb price (expected_price config) = true →
  sms_calls (check_price_and_notify w config).1
    = [sms_request_of config (notification_msg title price)]
  ∧ smtp_calls (check_price_and_notify w config).1
    = [smtp_request_of config title price].
Proof.
  intros H Hle. rewrite (check_triggered _ _ _ _ _ H Hle).
  rewrite (lookup_trace_eq _ _ H).
  destruct (send_sms_returns w config (notification_msg title price))
    as (l1 & r1 & ->).
  destruct (send_email_returns w config title price) as (l2 & r2 & ->).
  done.
Qed.

Lemma not_triggered_calls (t : trace) (title : option string) (price : F64.float) :
  get_product_info w config = (t, Ok (title, price)) →
  F64.leb price (expected_price config) = false →
  sms_calls (check_price_and_notify w config).1 = []
  ∧ smtp_calls (check_price_and_notify w config).1 = [].
Proof.
  intros H Hle. rewrite (check_not_triggered _ _ _ _ _ H Hle).
  by rewrite (lookup_trace_eq _ _ H).
Qed.

End Returns.

(** C1: for every configuration and every fetched snapshot (title, price),
    the notifiers are invoked if and only if price <= expected_price: when
    the comparison holds (the boundary price = expected_price included) the
    SMS notifier and the email notifier are each invoked, and otherwise, in
    particular when price > expected_price, neither is. *)
Theorem C1_notifiers_iff_price_le_target (w : World) (config : Config)
    (t : trace) (title : option string) (price : F64.float) :
  get_product_info w config = (t, Ok (title, price)) →
  let run := (check_price_and_notify w config).1 in
  (if F64.leb price (expected_price config)
   then sms_calls run = [sms_request_of config (notification_msg title price)]
        ∧ smtp_calls run = [smtp_request_of config title price]
   else sms_calls run = [] ∧ smtp_calls run = [])
  ∧ (F64.ltb (expected_price config) price = true →
     sms_calls run = [] ∧ smtp_calls run = []).
Proof.
  intros H run. subst run. split.
  - destruct (F64.leb price (expected_price config)) eqn:Hle.
    + by apply triggered_calls with t.
    + by apply not_triggered_calls with t title price.
  - intros Hgt. apply not_triggered_calls with t title price; [done|].
    by apply ltb_not_leb.
Qed.

(** The boundary case: the price equals the target of 50.00. *)
Lemma C1_witness_boundary :
  sms_calls
    (check_price_and_notify (world_priced f50_00 (Ok "SM1") (Ok tt))
       (sample_config f50_00)).1
    = [sms_request_of (sample_config f50_00) (notification_msg (Some "Widget") f50_00)]
  ∧ smtp_calls
      (check_price_and_notify (world_priced f50_00 (Ok "SM1") (Ok tt))
         (sample_config f50_00)).1
    = [smtp_request_of (sample_config f50_00) (Some "Widget") f50_00].
Proof.
  refine (proj1 (C1_notifiers_iff_price_le_target
                   (world_priced f50_00 (Ok "SM1") (Ok tt))
                   (sample_config f50_00)
                   [Lookup (lookup_request_of (sample_config f50_00))]
                   (Some "Widget") f50_00 _)).
  reflexivity.
Defined.

(** C4: the SMS notifier is fire-and-forget.  A failure of the send is
    caught inside [send_sms], which prints a description of it and returns
    [None]; in a triggered run whose lookup succeeded, the email notifier is
    still invoked after the failed SMS and the process exits with status
    0. *)
Theorem C4_sms_failure_does_not_propagate (w : World) (config : Config)
    (t : trace) (title : option string) (price : F64.float) (e : exception) :
  from_env w = ([], Ok config) →
  get_product_info w config = (t, Ok (title, price)) →
  F64.leb price (expected_price config) = true →
  twilio_messages_create w
    (sms_request_of config (notification_msg title price)) = Error e →
  (∀ message_body e',
     twilio_messages_create w (sms_request_of config message_body) = Error e' →
     send_sms w config message_body =
       ([ Sms (sms_request_of config message_body);
          Stdout ("Failed to send SMS: " +:+ exc_str e') ], Ok None))
  ∧ (∃ before line,
       (main w).1 =
         before
           ++ [ Sms (sms_request_of config (notification_msg title price));
                Stdout ("Failed to send SMS: " +:+ exc_str e);
                Smtp (smtp_request_of config title price);
                Stdout line ])
  ∧ (main w).2 = Ok tt
  ∧ exit_status (main w) = 0.
Proof.
  intros Hcfg Hinfo Hle Hsms. split.
  { intros body e' H. rewrite send_sms_cases. cbn zeta. by rewrite H. }
  rewrite (main_loaded w config Hcfg).
  rewrite (check_triggered w config t title price Hinfo Hle).
  rewrite send_sms_cases. cbn zeta. rewrite Hsms.
  destruct (send_email_returns w config title price) as (line & r & ->).
  cbn [fst snd]. split; [|done].
  exists (Stdout "Fetching product information..." :: t
            ++ report config title price
            ++ [Stdout (LF +:+ "Price is at or below target! Sending notifications...")]),
    line.
  cbn [app]. f_equal. rewrite <- !app_assoc. reflexivity.
Qed.

Lemma C4_witness_provider_rejects :
  (main (world_priced f49_99 (Error provider_rejection) (Ok tt))).2 = Ok tt
  ∧ exit_status (main (world_priced f49_99 (Error provider_rejection) (Ok tt)))
    = 0.
Proof.
  refine (proj2 (proj2 (C4_sms_failure_does_not_propagate
                          (world_priced f49_99 (Error provider_rejection) (Ok tt))
                          (sample_config f50_00)
                          [Lookup (lookup_request_of (sample_config f50_00))]
                          (Some "Widget") f49_99 provider_rejection _ _ _ _)));
    vm_compute; reflexivity.
Defined.

(** C5: the exit status is 0 on every run that loads its configuration
    and obtains a snapshot, whatever the notifiers answer and whether or
    not the threshold is met, and 1 whenever loading the configuration or
    the lookup fails. *)
Theorem C5_exit_status (w : World) :
  exit_status (main w) =
    match (from_env w).2 with
    | Ok config =>
        match (get_product_info w config).2 with
        | Ok _ => 0
        | Error _ => 1
        end
    | Error _ => 1
    end.
Proof.
  pose proof (from_env_trace w) as Ht.
  destruct (from_env w) as [t0 [config|r]] eqn:Hcfg; cbn in Ht; subst t0.
  - rewrite (main_loaded w config Hcfg). cbn [snd].
    destruct (get_product_info w config) as [t [[title price]|r]] eqn:Hinfo.
    + pose proof (check_returns w config t title price Hinfo) as Hret.
      unfold exit_status. by rewrite Hret, Hret.
    + destruct (get_product_info_raised w config t r Hinfo) as [e ->].
      by rewrite (check_lookup_failed w config t _ Hinfo).
  - destruct (from_env_raised w [] r Hcfg) as [e ->].
    by rewrite (main_not_loaded w e Hcfg).
Qed.

(** C6: when a required key is absent from the environment, loading the
    configuration fails with the [KeyError] that names a missing key, the
    process prints that key and exits with status 1, and the run makes no
    product lookup, SMS send or email send. *)
Theorem C6_missing_key_aborts_before_any_call (w : World) :
  (∃ key, key ∈ required_keys ∧ environ w !! key = None) →
  ∃ key,
    key ∈ required_keys ∧ environ w !! key = None
    ∧ from_env w = ([], Error (Raised (Exc KeyError (repr key) None)))
    ∧ main w =
        ([ Stdout ("Missing required environment variable: " +:+ repr key);
           Stdout "Please check your .env file or environment configuration." ],
         Error (SystemExit 1))
    ∧ exit_status (main w) = 1
    ∧ lookup_calls (main w).1 = []
    ∧ sms_calls (main w).1 = []
    ∧ smtp_calls (main w).1 = [].
Proof.
  intros H. destruct (from_env_missing w H) as (key & Hin & Hkey & Hcfg).
  exists key. rewrite (main_not_loaded w _ Hcfg). done.
Qed.

Lemma C6_witness_no_mail_user :
  ∃ key,
    key ∈ required_keys ∧ environ world_without_mail_user !! key = None
    ∧ from_env world_without_mail_user
      = ([], Error (Raised (Exc KeyError (repr key) None)))
    ∧ main world_without_mail_user =
        ([ Stdout ("Missing required environment variable: " +:+ repr key);
           Stdout "Please check your .env file or environment configuration." ],
         Error (SystemExit 1))
    ∧ exit_status (main world_without_mail_user) = 1
    ∧ lookup_calls (main world_without_mail_user).1 = []
    ∧ sms_calls (main world_without_mail_user).1 = []
    ∧ smtp_calls (main world_without_mail_user).1 = [].
Proof.
  apply (C6_missing_key_aborts_before_any_call world_without_mail_user).
  exists "GMAIL_USER". split.
  - unfold required_keys.
    repeat first [ apply list_elem_of_here | apply list_elem_of_further ].
  - vm_compute. reflexivity.
Defined.


(** ** The claims about the messages *)

Example float_50_00 : F64.float_of_string "50.00" = Some f50_00.
Proof. vm_compute. reflexivity. Qed.


Example float_50_01 : F64.float_of_string "50.01" = Some f50_01.
Proof. vm_compute. reflexivity. Qed.



Example shortfall_50_01 : F64.format_2f (F64.sub f50_01 f50_00) = "0.01".
Proof. vm_compute. reflexivity. Qed.

Section Messages.
Context (config : Config) (title : option string) (price : F64.float).






End Messages.



(** C9: in every run that is not triggered, which includes every run
    with price > expected_price, no notifier is invoked and the last line
    printed states the shortfall price - expected_price with two decimals;
    with a target of 50.00 and a price of 50.01 the printed shortfall is
    0.01. *)
Theorem C9_shortfall_of_a_run_above_target (w : World) (config : Config)
    (t : trace) (title : option string) (price : F64.float) :
  get_product_info w config = (t, Ok (title, price)) →
  F64.leb price (expected_price config) = false →
  let run := (check_price_and_notify w config).1 in
  last (printed run)
    = Some (LF +:+ "Price is still above target by $"
            +:+ F64.format_2f (F64.sub price (expected_price config)))
  ∧ sms_calls run = [] ∧ smtp_calls run = []
  ∧ (F64.float_of_string "50.00" = Some (expected_price config) →
     F64.float_of_string "50.01" = Some price →
     F64.format_2f (F64.sub price (expected_price config)) = "0.01").
Proof.
  intros H Hle run.
  destruct (not_triggered_calls w config t title price H Hle) as [Hsms Hsmtp].
  subst run. rewrite Hsms, Hsmtp.
  split; [|split; [done|split; [done|]]].
  - rewrite (check_not_triggered w config t title price H Hle).
    by rewrite (lookup_trace_eq w config t _ H).
  - intros Htarget Hprice.
    rewrite float_50_00 in Htarget. rewrite float_50_01 in Hprice.
    injection Htarget as <-. injection Hprice as <-.
    exact shortfall_50_01.
Qed.

Lemma C9_witness_50_01 :
  last (printed (check_price_and_notify (world_priced f50_01 (Ok "SM1") (Ok tt))
                   (sample_config f50_00)).1)
    = Some (LF +:+ "Price is still above target by $0.01")
  ∧ sms_calls (check_price_and_notify (world_priced f50_01 (Ok "SM1") (Ok tt))
                 (sample_config f50_00)).1 = []
  ∧ smtp_calls (check_price_and_notify (world_priced f50_01 (Ok "SM1") (Ok tt))
                  (sample_config f50_00)).1 = [].
Proof.
  destruct (C9_shortfall_of_a_run_above_target
              (world_priced f50_01 (Ok "SM1") (Ok tt))
              (sample_config f50_00)
              [Lookup (lookup_request_of (sample_config f50_00))]
              (Some "Widget") f50_01 eq_refl eq_refl) as (Hlast & Hsms & Hsmtp & _).
  exact (conj Hlast (conj Hsms Hsmtp)).
Defined.




(** ** The claims about validation and about the failure of the lookup *)

(** C2, as the specification states it, fails on the script: an
    environment whose expected price is "-5" is one that the specification
    rejects, and the script builds a configuration from it. *)
Lemma C2_counterexample_negative_target_accepted :
  ¬ spec_validating_construction.
Proof.
  intros Hspec.
  refine (Hspec world_negative_target _ (sample_config f_minus_5) _).
  - left. exists "-5". split; [by vm_compute|].
    intros p. vm_compute. by intros [= <-].
  - vm_compute. reflexivity.
Qed.

(** Further environments that the specification rejects and the script
    accepts: an infinite target, a target that is not a number, and an
    empty mail user. *)
Example from_env_accepts_infinity :
  from_env (sample_world (sample_environ "inf") (Ok []) (Ok "SM1") (Ok tt))
  = ([], Ok (sample_config (S754_infinity false))).
Proof. vm_compute. reflexivity. Qed.

Example from_env_accepts_nan :
  from_env (sample_world (sample_environ "nan") (Ok []) (Ok "SM1") (Ok tt))
  = ([], Ok (sample_config S754_nan)).
Proof. vm_compute. reflexivity. Qed.

Example from_env_accepts_empty_string :
  (from_env (sample_world (<["GMAIL_USER" := ""]> (sample_environ "50.00"))
               (Ok []) (Ok "SM1") (Ok tt))).2
  = Ok (environ_config
          (sample_world (<["GMAIL_USER" := ""]> (sample_environ "50.00"))
             (Ok []) (Ok "SM1") (Ok tt)) f50_00).
Proof. vm_compute. reflexivity. Qed.

(** C2, amended: construction reads the thirteen required keys and
    examines the syntax of the expected price only.  With every required
    key set, it fails, with a [ValueError] that [main] turns into exit
    status 1, exactly when [float()] does not accept the expected-price
    string; otherwise it succeeds and stores the parsed number and the
    strings of the environment as they are, whatever the sign or the
    finiteness of the number and whether or not a string is empty. *)
Theorem C2_construction_checks_float_syntax_only (w : World) :
  (∀ key, key ∈ required_keys → is_Some (environ w !! key)) →
  ∃ s,
    environ w !! "EXPECTED_PRICE" = Some s
    ∧ from_env w =
        match F64.float_of_string s with
        | Some p => ([], Ok (environ_config w p))
        | None =>
            ([], Error (Raised
                          (Exc ValueError
                             ("could not convert string to float: " +:+ repr s)
                             None)))
        end
    ∧ (F64.float_of_string s = None →
       main w =
         ([ Stdout ("An error occurred: could not convert string to float: "
                    +:+ repr s) ],
          Error (SystemExit 1))
       ∧ exit_status (main w) = 1).
Proof.
  intros Hall.
  destruct (Hall "EXPECTED_PRICE") as [s Hs].
  { unfold required_keys.
    repeat first [ apply list_elem_of_here | apply list_elem_of_further ]. }
  exists s. split; [done|].
  pose proof (from_env_complete w s Hall Hs) as Hcfg.
  split; [done|]. intros Hnone. rewrite Hnone in Hcfg.
  by rewrite (main_not_loaded w _ Hcfg).
Qed.

Lemma C2_witness_negative_target :
  ∃ s,
    environ world_negative_target !! "EXPECTED_PRICE" = Some s
    ∧ from_env world_negative_target =
        match F64.float_of_string s with
        | Some p => ([], Ok (environ_config world_negative_target p))
        | None =>
            ([], Error (Raised
                          (Exc ValueError
                             ("could not convert string to float: " +:+ repr s)
                             None)))
        end
    ∧ (F64.float_of_string s = None →
       main world_negative_target =
         ([ Stdout ("An error occurred: could not convert string to float: "
                    +:+ repr s) ],
          Error (SystemExit 1))
       ∧ exit_status (main world_negative_target) = 1).
Proof.
  apply (C2_construction_checks_float_syntax_only world_negative_target).
  intros key Hkey. unfold required_keys in Hkey.
  repeat (apply elem_of_cons in Hkey as [->|Hkey];
          [vm_compute; eexists; reflexivity|]).
  by apply elem_of_nil in Hkey.
Defined.

(** C3, as the specification states it, fails on the script: when the
    remote call raises, the lookup raises that very exception, which is no
    [LookupError] and has no cause. *)
Lemma C3_counterexample_no_wrapping : ¬ spec_wrapping_lookup.
Proof.
  intros Hspec.
  destruct (Hspec world_lookup_error (sample_config f50_00) throttled eq_refl)
    as (e & He & _ & Hcause).
  vm_compute in He. injection He as <-. discriminate Hcause.
Qed.

(** C3, amended: when the remote call raises, returns no item, or returns
    a first item that lacks its item info, its title object, its offers,
    its listings or a first listing, the price object of that listing or
    its price amount, the lookup raises the underlying exception itself,
    unwrapped; the run prints a diagnostic, exits with status 1 and
    invokes no notifier. *)
Theorem C3_lookup_failure_aborts_the_run (w : World) (config : Config) :
  from_env w = ([], Ok config) →
  lookup_fails w config →
  ∃ e,
    get_product_info w config
      = ([Lookup (lookup_request_of config)], Error (Raised e))
    ∧ match amazon_get_items w (lookup_request_of config) with
      | Error cause => e = cause
      | Ok [] => e = Exc IndexError "list index out of range" None
      | Ok (_ :: _) =>
          exc_class e ∈ [AttributeError; TypeError; IndexError]
          ∧ exc_cause e = None
      end
    ∧ main w =
        (Stdout "Fetching product information..."
           :: Lookup (lookup_request_of config) :: diagnostic e,
         Error (SystemExit 1))
    ∧ exit_status (main w) = 1
    ∧ sms_calls (main w).1 = []
    ∧ smtp_calls (main w).1 = [].
Proof.
  intros Hcfg Hfails.
  destruct (lookup_failure_raises w config Hfails) as (e & Hinfo & Hcause).
  exists e. split; [done|]. split; [done|].
  rewrite (main_loaded w config Hcfg).
  rewrite (check_lookup_failed w config _ _ Hinfo). cbn [fst snd app].
  destruct (diagnostic_calls e) as (_ & Hs & Hm).
  split; [done|]. split; [done|]. cbn [sms_calls smtp_calls omap].
  split; assumption.
Qed.

Lemma C3_witness_throttled :
  ∃ e,
    get_product_info world_lookup_error (sample_config f50_00)
      = ([Lookup (lookup_request_of (sample_config f50_00))], Error (Raised e))
    ∧ e = throttled
    ∧ main world_lookup_error =
        (Stdout "Fetching product information..."
           :: Lookup (lookup_request_of (sample_config f50_00)) :: diagnostic e,
         Error (SystemExit 1))
    ∧ exit_status (main world_lookup_error) = 1
    ∧ sms_calls (main world_lookup_error).1 = []
    ∧ smtp_calls (main world_lookup_error).1 = [].
Proof.
  apply (C3_lookup_failure_aborts_the_run world_lookup_error
           (sample_config f50_00)).
  - vm_compute. reflexivity.
  - exact I.
Defined.

(** * Further properties of the script *)

(** ** More on loading the configuration *)

(** The lookups of [from_env] in a world [w], in the order in which it
    makes them; [tac] closes the case in which the key is missing. *)
Ltac environ_lookup w k tac :=
  destruct (environ w !! k) eqn:?; run_monad; [|tac k].

Ltac environ_lookups w tac :=
  environ_lookup w "AMAZON_ACCESS_KEY" tac;
  environ_lookup w "AMAZON_SECRET_KEY" tac;
  environ_lookup w "AMAZON_ASSOCIATE_TAG" tac;
  environ_lookup w "TWILIO_ACCOUNT_SID" tac;
  environ_lookup w "TWILIO_AUTH_TOKEN" tac;
  environ_lookup w "TWILIO_FROM_NUMBER" tac;
  environ_lookup w "TWILIO_TO_NUMBER" tac;
  environ_lookup w "GMAIL_USER" tac;
  environ_lookup w "GMAIL_APP_PASSWORD" tac;
  environ_lookup w "EMAIL_FROM" tac;
  environ_lookup w "EMAIL_TO" tac;
  environ_lookup w "AMAZON_PRODUCT_ID" tac;
  environ_lookup w "EXPECTED_PRICE" tac.

(** X1: a configuration that was loaded holds, field by field, the value
    of its environment variable; the region is the value of AMAZON_REGION,
    or "US" when that variable is not set; the expected price is what
    [float()] reads from EXPECTED_PRICE. *)
Theorem X1_loaded_configuration_mirrors_environment (w : World)
    (t : trace) (config : Config) :
  from_env w = (t, Ok config) →
  environ w !! "AMAZON_ACCESS_KEY" = Some (amazon_access_key config)
  ∧ environ w !! "AMAZON_SECRET_KEY" = Some (amazon_secret_key config)
  ∧ environ w !! "AMAZON_ASSOCIATE_TAG" = Some (amazon_associate_tag config)
  ∧ amazon_region config
    = match environ w !! "AMAZON_REGION" with
      | Some region => region
      | None => "US"
      end
  ∧ environ w !! "TWILIO_ACCOUNT_SID" = Some (twilio_account_sid config)
  ∧ environ w !! "TWILIO_AUTH_TOKEN" = Some (twilio_auth_token config)
  ∧ environ w !! "TWILIO_FROM_NUMBER" = Some (twilio_from_number config)
  ∧ environ w !! "TWILIO_TO_NUMBER" = Some (twilio_to_number config)
  ∧ environ w !! "GMAIL_USER" = Some (gmail_user config)
  ∧ environ w !! "GMAIL_APP_PASSWORD" = Some (gmail_app_password config)
  ∧ environ w !! "EMAIL_FROM" = Some (email_from config)
  ∧ environ w !! "EMAIL_TO" = Some (email_to config)
  ∧ environ w !! "AMAZON_PRODUCT_ID" = Some (product_id config)
  ∧ (∃ s, environ w !! "EXPECTED_PRICE" = Some s
          ∧ F64.float_of_string s = Some (expected_price config)).
Proof.
  unfold from_env, environ_item, float_, getenv.
  environ_lookups w ltac:(fun _ => intros [=]).
  destruct (F64.float_of_string _) eqn:Hprice; run_monad; intros [= <- <-].
  cbn [amazon_access_key amazon_secret_key amazon_associate_tag amazon_region
       twilio_account_sid twilio_auth_token twilio_from_number
       twilio_to_number gmail_user gmail_app_password email_from email_to
       product_id expected_price].
  repeat (split; [reflexivity|]). eauto.
Qed.

Lemma X1_witness_sample :
  environ (world_priced f49_99 (Ok "SM1") (Ok tt)) !! "AMAZON_ACCESS_KEY"
    = Some (amazon_access_key (sample_config f50_00))
  ∧ environ (world_priced f49_99 (Ok "SM1") (Ok tt)) !! "AMAZON_SECRET_KEY"
    = Some (amazon_secret_key (sample_config f50_00)).
Proof.
  destruct (X1_loaded_configuration_mirrors_environment
              (world_priced f49_99 (Ok "SM1") (Ok tt)) []
              (sample_config f50_00))
    as (H1 & H2 & _).
  - vm_compute. reflexivity.
  - exact (conj H1 H2).
Defined.

(** X2: what [from_env] returns is decided by the environment alone, in
    this order: the first required key that is not set, in the order in
    which the keys are read, is reported by a [KeyError]; with every key
    set, an expected price that [float()] does not accept is reported by a
    [ValueError]; otherwise the configuration is returned.  Nothing is
    printed and no collaborator is called. *)
Theorem X2_from_env_reports_first_missing_key (w : World) :
  from_env w =
    match first_missing_key w with
    | Some key => ([], Error (Raised (Exc KeyError (repr key) None)))
    | None =>
        let s := default "" (environ w !! "EXPECTED_PRICE") in
        match F64.float_of_string s with
        | Some p => ([], Ok (environ_config w p))
        | None =>
            ([], Error (Raised
                          (Exc ValueError
                             ("could not convert string to float: " +:+ repr s)
                             None)))
        end
    end.
Proof.
  unfold first_missing_key, required_keys, environ_config.
  unfold from_env, environ_item, float_.
  cbn [List.find].
  environ_lookups w
    ltac:(fun _ =>
            repeat (rewrite bool_decide_eq_false_2 by discriminate);
            rewrite bool_decide_eq_true_2 by reflexivity; reflexivity).
  repeat (rewrite bool_decide_eq_false_2 by discriminate).
  cbn [default from_option id].
  by destruct (F64.float_of_string _).
Qed.

(** ** More on the comparison of floats *)

Section Comparison.

Lemma SFcompare_antisym (x y : F64.float) :
  SFcompare y x = CompOpp <$> SFcompare x y.
Proof.
  destruct x as [sx|sx| |sx mx ex], y as [sy|sy| |sy my ey]; cbn;
    try done; try (by destruct sx); try (by destruct sy);
    try (by destruct sx, sy).
  destruct sx, sy; cbn; try done;
    rewrite (Z.compare_antisym ey ex), (compare_cont_flip my mx);
    destruct (ey ?= ex); cbn; try done;
    by destruct (Pos.compare_cont Eq my mx).
Qed.

Lemma SFcompare_None (x y : F64.float) :
  SFcompare x y = None ↔ is_nan x = true ∨ is_nan y = true.
Proof.
  destruct x as [sx|sx| |sx mx ex], y as [sy|sy| |sy my ey]; cbn;
    try (destruct sx); try (destruct sy);
    (split; [try discriminate; auto | try (intros [[=]|[=]]); auto]).
Qed.

(** [x <= y] fails exactly when [y < x] or one of the two is not a
    number. *)
Lemma leb_false_iff (x y : F64.float) :
  F64.leb x y = false
  ↔ F64.ltb y x = true ∨ is_nan x = true ∨ is_nan y = true.
Proof.
  rewrite <- SFcompare_None.
  unfold F64.leb, F64.ltb, SFleb, SFltb. rewrite (SFcompare_antisym x y).
  destruct (SFcompare x y) as [[]|]; cbn;
    (split; [auto | try (intros [?|?]); try done; auto]).
Qed.

Lemma leb_infinity (x : F64.float) :
  is_nan x = false → F64.leb x (S754_infinity false) = true.
Proof. destruct x as [s|s| |s m e]; try (destruct s); done. Qed.

End Comparison.

(** ** More on whole runs *)

Section Runs.
Context (w : World).

(** A configuration that was loaded was loaded silently, from an
    environment that sets every required key, and it is the configuration
    of that environment. *)
Lemma from_env_inv (t : trace) (config : Config) :
  from_env w = (t, Ok config) →
  t = []
  ∧ (∀ key, key ∈ required_keys → is_Some (environ w !! key))
  ∧ ∃ s, environ w !! "EXPECTED_PRICE" = Some s
         ∧ F64.float_of_string s = Some (expected_price config)
         ∧ config = environ_config w (expected_price config).
Proof.
  intros H.
  assert (t = []) as -> by (by rewrite <- (from_env_trace w), H).
  split; [done|].
  assert (∀ key, key ∈ required_keys → is_Some (environ w !! key)) as Hall.
  { intros key Hkey. destruct (environ w !! key) eqn:E; [by eexists|].
    destruct (from_env_missing w) as (k & _ & _ & Hk); [by eauto|].
    by rewrite Hk in H. }
  split; [done|].
  destruct (Hall "EXPECTED_PRICE") as [s Hs].
  { unfold required_keys.
    repeat first [ apply list_elem_of_here | apply list_elem_of_further ]. }
  exists s. split; [done|].
  rewrite (from_env_complete w s Hall Hs) in H.
  destruct (F64.float_of_string s); [|done].
  by injection H as <-.
Qed.

(** The outbound calls of a run, as decided by the configuration, the
    snapshot and the comparison. *)
Lemma main_calls :
  lookup_calls (main w).1
    = match (from_env w).2 with
      | Ok config => [lookup_request_of config]
      | Error _ => []
      end
  ∧ sms_calls (main w).1
    = match (from_env w).2 with
      | Ok config =>
          match (get_product_info w config).2 with
          | Ok (title, price) =>
              if F64.leb price (expected_price config)
              then [sms_request_of config (notification_msg title price)]
              else []
          | Error _ => []
          end
      | Error _ => []
      end
  ∧ smtp_calls (main w).1
    = match (from_env w).2 with
      | Ok config =>
          match (get_product_info w config).2 with
          | Ok (title, price) =>
              if F64.leb price (expected_price config)
              then [smtp_request_of config title price]
              else []
          | Error _ => []
          end
      | Error _ => []
      end.
Proof.
  pose proof (from_env_trace w) as Ht.
  destruct (from_env w) as [t0 [config|r]] eqn:Hcfg; cbn in Ht; subst t0.
  - rewrite (main_loaded w config Hcfg). cbn [snd].
    destruct (get_product_info w config) as [t [[title price]|r]] eqn:Hinfo.
    + rewrite (check_returns w config t title price Hinfo). cbn [snd].
      pose proof (lookup_trace_eq w config t _ Hinfo) as ->.
      destruct (F64.leb price (expected_price config)) eqn:Hle.
      * destruct (triggered_calls w config _ title price Hinfo Hle)
          as [-> ->].
        rewrite (check_triggered w config _ title price Hinfo Hle).
        destruct (send_sms_returns w config (notification_msg title price))
          as (l1 & r1 & ->).
        destruct (send_email_returns w config title price) as (l2 & r2 & ->).
        done.
      * destruct (not_triggered_calls w config _ title price Hinfo Hle)
          as [-> ->].
        rewrite (check_not_triggered w config _ title price Hinfo Hle).
        done.
    + destruct (get_product_info_raised w config t r Hinfo) as [e ->].
      pose proof (lookup_trace_eq w config t _ Hinfo) as ->.
      rewrite (check_lookup_failed w config _ _ Hinfo). cbn [fst snd].
      destruct (diagnostic_calls e) as (Hl & Hs & Hm).
      unfold lookup_calls, sms_calls, smtp_calls in *.
      cbn [app omap list_omap]. by rewrite Hl, Hs, Hm.
  - destruct (from_env_raised w [] r Hcfg) as [e ->].
    rewrite (main_not_loaded w e Hcfg). cbn [fst snd].
    apply diagnostic_calls.
Qed.

End Runs.

(** X3: whatever the environment and the collaborators, a run makes at
    most one product lookup, attempts the email exactly as often as the
    SMS (once each or not at all), and notifies only in a run that made
    its lookup. *)
Theorem X3_at_most_one_lookup_and_one_burst (w : World) :
  (length (lookup_calls (main w).1) ≤ 1)%nat
  ∧ length (sms_calls (main w).1) = length (smtp_calls (main w).1)
  ∧ (length (sms_calls (main w).1) ≤ length (lookup_calls (main w).1))%nat.
Proof.
  destruct (main_calls w) as (-> & -> & ->).
  destruct ((from_env w).2) as [config|]; [|cbn; lia].
  destruct ((get_product_info w config).2) as [[title price]|]; [|cbn; lia].
  destruct (F64.leb price (expected_price config)); cbn; lia.
Qed.

(** X4: in a triggered run the requests are addressed from the
    environment: the SMS goes from TWILIO_FROM_NUMBER to TWILIO_TO_NUMBER
    with the Twilio account of the environment, and the email goes from
    EMAIL_FROM to EMAIL_TO, in the envelope and in the headers, through
    smtp.gmail.com on port 587 with the login GMAIL_USER and
    GMAIL_APP_PASSWORD, under the subject "Amazon Price Alert - Price
    Drop!". *)
Theorem X4_requests_are_addressed_from_the_environment (w : World)
    (config : Config) (t : trace) (title : option string) (price : F64.float) :
  from_env w = ([], Ok config) →
  get_product_info w config = (t, Ok (title, price)) →
  F64.leb price (expected_price config) = true →
  ∃ sms mail,
    sms_calls (main w).1 = [sms] ∧ smtp_calls (main w).1 = [mail]
    ∧ environ w !! "TWILIO_ACCOUNT_SID" = Some (sms_account_sid sms)
    ∧ environ w !! "TWILIO_AUTH_TOKEN" = Some (sms_auth_token sms)
    ∧ environ w !! "TWILIO_FROM_NUMBER" = Some (sms_from sms)
    ∧ environ w !! "TWILIO_TO_NUMBER" = Some (sms_to sms)
    ∧ smtp_host mail = "smtp.gmail.com" ∧ smtp_port mail = 587
    ∧ environ w !! "GMAIL_USER" = Some (smtp_user mail)
    ∧ environ w !! "GMAIL_APP_PASSWORD" = Some (smtp_password mail)
    ∧ environ w !! "EMAIL_FROM" = Some (smtp_from_addr mail)
    ∧ environ w !! "EMAIL_TO" = Some (smtp_to_addrs mail)
    ∧ environ w !! "EMAIL_FROM" = Some (header_From (smtp_message mail))
    ∧ environ w !! "EMAIL_TO" = Some (header_To (smtp_message mail))
    ∧ header_Subject (smtp_message mail) = "Amazon Price Alert - Price Drop!".
Proof.
  intros Hcfg Hinfo Hle.
  destruct (main_calls w) as (_ & -> & ->).
  rewrite Hcfg. cbn [snd]. rewrite Hinfo. cbn [snd]. rewrite Hle.
  destruct (from_env_inv w [] config Hcfg) as (_ & Hall & s & _ & _ & Hconfig).
  assert (∀ key, key ∈ required_keys →
            environ w !! key = Some (default "" (environ w !! key))) as Hval.
  { intros key Hkey. by destruct (Hall key Hkey) as [v ->]. }
  eexists _, _. split; [reflexivity|]. split; [reflexivity|].
  rewrite Hconfig.
  cbn [sms_request_of smtp_request_of email_message environ_config
       sms_account_sid sms_auth_token sms_from sms_to smtp_host smtp_port
       smtp_user smtp_password smtp_from_addr smtp_to_addrs smtp_message
       header_From header_To header_Subject
       twilio_account_sid twilio_auth_token twilio_from_number
       twilio_to_number gmail_user gmail_app_password email_from email_to].
  repeat
    (split;
     [ first
         [ reflexivity
         | apply Hval; unfold required_keys;
           repeat first
             [ apply list_elem_of_here | apply list_elem_of_further ] ]
     |]).
  reflexivity.
Qed.

Lemma X4_witness_sample :
  ∃ sms mail,
    sms_calls (main (world_priced f49_99 (Ok "SM1") (Ok tt))).1 = [sms]
    ∧ smtp_calls (main (world_priced f49_99 (Ok "SM1") (Ok tt))).1 = [mail]
    ∧ sms_to sms = "+15550002" ∧ smtp_to_addrs mail = "you@example.org".
Proof.
  destruct (X4_requests_are_addressed_from_the_environment
              (world_priced f49_99 (Ok "SM1") (Ok tt))
              (sample_config f50_00)
              [Lookup (lookup_request_of (sample_config f50_00))]
              (Some "Widget") f49_99)
    as (sms & mail & Hs & Hm & _ & _ & _ & Hto & _ & _ & _ & _ & _ & Hmto & _).
  - vm_compute. reflexivity.
  - vm_compute. reflexivity.
  - vm_compute. reflexivity.
  - exists sms, mail. split; [exact Hs|]. split; [exact Hm|].
    revert Hto Hmto. vm_compute. intros [= <-] [= <-]. split; reflexivity.
Defined.

(** X5: a run whose lookup returned a snapshot leaves both notifiers
    alone exactly when the price is above the target or one of the two is
    not a number. *)
Theorem X5_not_triggered_iff_above_or_nan (w : World) (config : Config)
    (t : trace) (title : option string) (price : F64.float) :
  get_product_info w config = (t, Ok (title, price)) →
  (sms_calls (check_price_and_notify w config).1 = []
   ∧ smtp_calls (check_price_and_notify w config).1 = [])
  ↔ (F64.ltb (expected_price config) price = true
     ∨ is_nan price = true ∨ is_nan (expected_price config) = true).
Proof.
  intros Hinfo. rewrite <- leb_false_iff.
  destruct (F64.leb price (expected_price config)) eqn:Hle.
  - destruct (triggered_calls w config t title price Hinfo Hle) as [-> _].
    split; [by intros [[=] _]|done].
  - by destruct (not_triggered_calls w config t title price Hinfo Hle)
      as [-> ->].
Qed.

Lemma X5_witness_above :
  (sms_calls (check_price_and_notify (world_priced f50_01 (Ok "SM1") (Ok tt))
                (sample_config f50_00)).1 = []
   ∧ smtp_calls (check_price_and_notify
                   (world_priced f50_01 (Ok "SM1") (Ok tt))
                   (sample_config f50_00)).1 = [])
  ↔ (F64.ltb f50_00 f50_01 = true
     ∨ is_nan f50_01 = true ∨ is_nan f50_00 = true).
Proof.
  exact (X5_not_triggered_iff_above_or_nan
           (world_priced f50_01 (Ok "SM1") (Ok tt)) (sample_config f50_00)
           [Lookup (lookup_request_of (sample_config f50_00))]
           (Some "Widget") f50_01 eq_refl).
Defined.

(** X6: an expected price that [float()] reads as not-a-number, such as
    EXPECTED_PRICE=nan, is accepted (with every required key set, the
    configuration loads, with that target) and silences the program: no
    run with such an environment ever sends an SMS or an email, whatever
    the marketplace reports. *)
Theorem X6_nan_target_never_notifies (w : World) (s : string) :
  environ w !! "EXPECTED_PRICE" = Some s →
  F64.float_of_string s = Some S754_nan →
  ((∀ key, key ∈ required_keys → is_Some (environ w !! key)) →
   from_env w = ([], Ok (environ_config w S754_nan)))
  ∧ sms_calls (main w).1 = [] ∧ smtp_calls (main w).1 = [].
Proof.
  intros Hs Hnan. split.
  { intros Hall. by rewrite (from_env_complete w s Hall Hs), Hnan. }
  destruct (main_calls w) as (_ & -> & ->).
  destruct (from_env w) as [t0 [config|r]] eqn:Hcfg; [|done]. cbn [snd].
  destruct (from_env_inv w t0 config Hcfg) as (_ & _ & s' & Hs' & Hprice & _).
  assert (expected_price config = S754_nan) as Htarget by congruence.
  destruct ((get_product_info w config).2) as [[title price]|]; [|done].
  rewrite Htarget.
  assert (F64.leb price S754_nan = false) as ->; [|done].
  apply leb_false_iff. auto.
Qed.

Lemma X6_witness_nan :
  from_env (sample_world (sample_environ "nan")
              (Ok [sample_product "Widget" (PyFloat f49_99)])
              (Ok "SM1") (Ok tt))
    = ([], Ok (sample_config S754_nan))
  ∧ sms_calls (main (sample_world (sample_environ "nan")
                       (Ok [sample_product "Widget" (PyFloat f49_99)])
                       (Ok "SM1") (Ok tt))).1 = []
  ∧ smtp_calls (main (sample_world (sample_environ "nan")
                        (Ok [sample_product "Widget" (PyFloat f49_99)])
                        (Ok "SM1") (Ok tt))).1 = [].
Proof.
  destruct (X6_nan_target_never_notifies
              (sample_world (sample_environ "nan")
                 (Ok [sample_product "Widget" (PyFloat f49_99)])
                 (Ok "SM1") (Ok tt)) "nan")
    as (Hload & Hsms & Hsmtp).
  - vm_compute. reflexivity.
  - vm_compute. reflexivity.
  - split; [|exact (conj Hsms Hsmtp)].
    rewrite Hload; [vm_compute; reflexivity|].
    intros key Hkey. unfold required_keys in Hkey.
    repeat (apply elem_of_cons in Hkey as [->|Hkey];
            [vm_compute; eexists; reflexivity|]).
    destruct (proj1 (elem_of_nil key) Hkey).
Defined.

(** X7: an infinite expected price, such as EXPECTED_PRICE=inf, is
    accepted and makes every run notify whose lookup returns a price that
    is a number. *)
Theorem X7_infinite_target_always_notifies (w : World) (config : Config)
    (t : trace) (title : option string) (price : F64.float) :
  from_env w = ([], Ok config) →
  expected_price config = S754_infinity false →
  get_product_info w config = (t, Ok (title, price)) →
  is_nan price = false →
  sms_calls (main w).1 = [sms_request_of config (notification_msg title price)]
  ∧ smtp_calls (main w).1 = [smtp_request_of config title price].
Proof.
  intros Hcfg Htarget Hinfo Hprice.
  destruct (main_calls w) as (_ & -> & ->).
  rewrite Hcfg. cbn [snd]. rewrite Hinfo. cbn [snd].
  by rewrite Htarget, (leb_infinity price Hprice).
Qed.

Lemma X7_witness_inf :
  sms_calls (main (sample_world (sample_environ "inf")
                     (Ok [sample_product "Widget" (PyFloat f49_99)])
                     (Ok "SM1") (Ok tt))).1
    = [sms_request_of (sample_config (S754_infinity false))
         (notification_msg (Some "Widget") f49_99)]
  ∧ smtp_calls (main (sample_world (sample_environ "inf")
                        (Ok [sample_product "Widget" (PyFloat f49_99)])
                        (Ok "SM1") (Ok tt))).1
    = [smtp_request_of (sample_config (S754_infinity false)) (Some "Widget") f49_99].
Proof.
  apply (X7_infinite_target_always_notifies
           (sample_world (sample_environ "inf")
              (Ok [sample_product "Widget" (PyFloat f49_99)])
              (Ok "SM1") (Ok tt))
           (sample_config (S754_infinity false))
           [Lookup (lookup_request_of (sample_config (S754_infinity false)))]
           (Some "Widget") f49_99);
    vm_compute; reflexivity.
Defined.

(** X8: the [except KeyError] clause of [main] also covers the lookup: a
    [KeyError] raised by the marketplace client, in a run whose
    environment sets every required key, is reported as a missing
    environment variable, and the process exits with status 1. *)
Theorem X8_lookup_KeyError_reported_as_missing_variable (w : World)
    (config : Config) (e : exception) :
  from_env w = ([], Ok config) →
  amazon_get_items w (lookup_request_of config) = Error e →
  isinstance e KeyError = true →
  (∀ key, key ∈ required_keys → is_Some (environ w !! key))
  ∧ printed (main w).1
    = [ "Fetching product information...";
        "Missing required environment variable: " +:+ exc_str e;
        "Please check your .env file or environment configuration." ]
  ∧ exit_status (main w) = 1.
Proof.
  intros Hcfg Hget Hkey.
  destruct (from_env_inv w [] config Hcfg) as (_ & Hall & _).
  split; [done|].
  assert (get_product_info w config
          = ([Lookup (lookup_request_of config)], Error (Raised e))) as Hinfo.
  { unfold get_product_info. by rewrite Hget. }
  rewrite (main_loaded w config Hcfg).
  rewrite (check_lookup_failed w config _ _ Hinfo). cbn [fst snd].
  unfold diagnostic. by rewrite Hkey.
Qed.

Lemma X8_witness_key_error :
  printed (main (sample_world (sample_environ "50.00")
                   (Error (Exc KeyError "'ItemsResult'" None))
                   (Ok "SM1") (Ok tt))).1
    = [ "Fetching product information...";
        "Missing required environment variable: 'ItemsResult'";
        "Please check your .env file or environment configuration." ]
  ∧ exit_status (main (sample_world (sample_environ "50.00")
                         (Error (Exc KeyError "'ItemsResult'" None))
                         (Ok "SM1") (Ok tt))) = 1.
Proof.
  refine (proj2 (X8_lookup_KeyError_reported_as_missing_variable
                   (sample_world (sample_environ "50.00")
                      (Error (Exc KeyError "'ItemsResult'" None))
                      (Ok "SM1") (Ok tt))
                   (sample_config f50_00)
                   (Exc KeyError "'ItemsResult'" None) _ _ _));
    vm_compute; reflexivity.
Defined.

(** X9: the lookup returns a snapshot exactly when the marketplace
    returned at least one item, the first item has a title object, and
    the first listing of the first item has a price amount that [float()]
    converts: a float, a string or an int that it accepts, or another
    object that it converts.  The snapshot is the display value of that
    title, which may be [None], and the converted amount.  Items after
    the first and listings after the first have no influence. *)
Theorem X9_snapshot_is_first_item_first_listing (w : World) (config : Config)
    (title : option string) (price : F64.float) :
  get_product_info w config
    = ([Lookup (lookup_request_of config)], Ok (title, price))
  ↔ ∃ p ps value,
      amazon_get_items w (lookup_request_of config) = Ok (p :: ps)
      ∧ title_of p = Some title
      ∧ amount_of p = Some value
      ∧ (value = PyFloat price
         ∨ (∃ s, value = PyStr s ∧ F64.float_of_string s = Some price)
         ∨ (∃ n, value = PyInt n ∧ F64.of_int n = Some price)
         ∨ value = PyObject (Ok price)).
Proof.
  unfold get_product_info, title_of, amount_of.
  destruct (amazon_get_items w _) as [[|p ps]|cause]; cbn;
    [split; [done|by intros (? & ? & ? & [=] & _)]| |
     split; [done|by intros (? & ? & ? & [=] & _)]].
  destruct p as [info product_offers].
  split.
  - intros H. exists (Build_Product info product_offers), ps.
    revert H. cbn.
    destruct info as [[[[name]|]]|]; cbn; try done.
    destruct product_offers as [[[[|[[[value]|]] ls]|]]|]; cbn; try done.
    intros H. exists value. split; [done|]. revert H.
    destruct value as [|x|s|n|[x|e]]; cbn; try done.
    + intros [= <- <-]. auto.
    + destruct (F64.float_of_string s) eqn:Hs; cbn; [|done].
      intros [= <- <-]. eauto 10.
    + destruct (F64.of_int n) eqn:Hn; cbn; [|done].
      intros [= <- <-]. eauto 10.
    + intros [= <- <-]. auto 10.
  - intros (p' & ps' & value & [= <- <-] & Htitle & Hamount & Hvalue).
    revert Htitle Hamount. cbn.
    destruct info as [[[[name]|]]|]; cbn; try done. intros [= <-].
    destruct product_offers as [[[[|[[[value']|]] ls]|]]|]; cbn; try done.
    intros [= ->].
    destruct Hvalue as [-> | [(s & -> & Hs) | [(n & -> & Hn) | ->]]]; cbn;
      by rewrite ?Hs, ?Hn.
Qed.

(** X10: a price amount that is a string which [float()] does not accept
    aborts the run like a failed lookup: [main] prints the [ValueError],
    no notifier is called, and the process exits with status 1. *)
Theorem X10_unreadable_amount_aborts (w : World) (config : Config)
    (p : Product) (ps : list Product) (title : option string) (s : string) :
  from_env w = ([], Ok config) →
  amazon_get_items w (lookup_request_of config) = Ok (p :: ps) →
  title_of p = Some title →
  amount_of p = Some (PyStr s) →
  F64.float_of_string s = None →
  printed (main w).1
    = [ "Fetching product information...";
        "An error occurred: could not convert string to float: " +:+ repr s ]
  ∧ sms_calls (main w).1 = [] ∧ smtp_calls (main w).1 = []
  ∧ exit_status (main w) = 1.
Proof.
  intros Hcfg Hget Htitle Hamount Hs.
  assert (get_product_info w config
          = ([Lookup (lookup_request_of config)],
             Error (Raised (Exc ValueError
                              ("could not convert string to float: "
                               +:+ repr s) None)))) as Hinfo.
  { unfold get_product_info. rewrite Hget. revert Htitle Hamount.
    unfold title_of, amount_of. destruct p as [info product_offers]. cbn.
    destruct info as [[[[name]|]]|]; cbn; try done. intros _.
    destruct product_offers as [[[[|[[[value]|]] ls]|]]|]; cbn; try done.
    intros [= ->]. cbn. by rewrite Hs. }
  rewrite (main_loaded w config Hcfg).
  rewrite (check_lookup_failed w config _ _ Hinfo). done.
Qed.

Lemma X10_witness_unreadable :
  printed (main (sample_world (sample_environ "50.00")
                   (Ok [sample_product "Widget" (PyStr "N/A")])
                   (Ok "SM1") (Ok tt))).1
    = [ "Fetching product information...";
        "An error occurred: could not convert string to float: 'N/A'" ]
  ∧ sms_calls (main (sample_world (sample_environ "50.00")
                       (Ok [sample_product "Widget" (PyStr "N/A")])
                       (Ok "SM1") (Ok tt))).1 = []
  ∧ smtp_calls (main (sample_world (sample_environ "50.00")
                        (Ok [sample_product "Widget" (PyStr "N/A")])
                        (Ok "SM1") (Ok tt))).1 = []
  ∧ exit_status (main (sample_world (sample_environ "50.00")
                         (Ok [sample_product "Widget" (PyStr "N/A")])
                         (Ok "SM1") (Ok tt))) = 1.
Proof.
  apply (X10_unreadable_amount_aborts
           (sample_world (sample_environ "50.00")
              (Ok [sample_product "Widget" (PyStr "N/A")])
              (Ok "SM1") (Ok tt))
           (sample_config f50_00)
           (sample_product "Widget" (PyStr "N/A")) [] (Some "Widget") "N/A");
    vm_compute; reflexivity.
Defined.

(** X11: the transcript of a run that loaded its configuration and
    obtained a snapshot.  It starts with the fetch, the lookup and the
    three report lines; a triggered run then announces the notifications,
    sends the SMS, prints its outcome, sends the email and prints its
    outcome, in this order; any other run prints the shortfall and nothing
    else. *)
Theorem X11_transcript_of_a_completed_run (w : World) (config : Config)
    (t : trace) (title : option string) (price : F64.float) :
  from_env w = ([], Ok config) →
  get_product_info w config = (t, Ok (title, price)) →
  main w =
    ( [ Stdout "Fetching product information...";
        Lookup (lookup_request_of config);
        Stdout ("Product: " +:+ str_ title);
        Stdout ("Current Price: $" +:+ F64.format_2f price);
        Stdout ("Target Price: $" +:+ F64.format_2f (expected_price config)) ]
      ++ (if F64.leb price (expected_price config) then
            [ Stdout (LF +:+ "Price is at or below target! Sending notifications...");
              Sms (sms_request_of config (notification_msg title price));
              Stdout
                match twilio_messages_create w
                        (sms_request_of config (notification_msg title price))
                with
                | Ok sid => "SMS sent successfully. SID: " +:+ sid
                | Error e => "Failed to send SMS: " +:+ exc_str e
                end;
              Smtp (smtp_request_of config title price);
              Stdout
                match smtp_sendmail w (smtp_request_of config title price) with
                | Ok _ => "Email sent successfully!"
                | Error e =>
                    if isinstance e SMTPAuthenticationError then
                      "Failed to send email: Authentication error. Check your credentials."
                    else if isinstance e SMTPException then
                      "Failed to send email: SMTP error - " +:+ exc_str e
                    else "Failed to send email: " +:+ exc_str e
                end ]
          else
            [ Stdout (LF +:+ "Price is still above target by $"
                      +:+ F64.format_2f
                            (F64.sub price (expected_price config))) ]),
      Ok tt ).
Proof.
  intros Hcfg Hinfo.
  rewrite (main_loaded w config Hcfg).
  pose proof (lookup_trace_eq w config t _ Hinfo) as ->.
  destruct (F64.leb price (expected_price config)) eqn:Hle.
  - rewrite (check_triggered w config _ title price Hinfo Hle).
    rewrite send_sms_cases, send_email_cases. cbn zeta.
    destruct (twilio_messages_create w _), (smtp_sendmail w _) as [[]|];
      reflexivity.
  - by rewrite (check_not_triggered w config _ title price Hinfo Hle).
Qed.

Lemma X11_witness_sample :
  printed (main (world_priced f49_99 (Ok "SM1") (Ok tt))).1
  = [ "Fetching product information...";
      "Product: Widget"; "Current Price: $49.99"; "Target Price: $50.00";
      LF +:+ "Price is at or below target! Sending notifications...";
      "SMS sent successfully. SID: SM1";
      "Email sent successfully!" ].
Proof.
  rewrite (X11_transcript_of_a_completed_run
             (world_priced f49_99 (Ok "SM1") (Ok tt)) (sample_config f50_00)
             [Lookup (lookup_request_of (sample_config f50_00))]
             (Some "Widget") f49_99);
    vm_compute; reflexivity.
Defined.

(** ** The sign of the shortfall *)

Section Shortfall.

Lemma digits2_pos_size (m : positive) : digits2_pos m = Pos.size m.
Proof. induction m; cbn; by rewrite ?IHm. Qed.

Lemma iter_xO (d m : positive) :
  Zpos (Pos.iter xO m d) = Zpos m * 2 ^ Zpos d.
Proof.
  induction d as [|d IH] using Pos.peano_ind.
  - cbn. lia.
  - rewrite Pos.iter_succ, Pos2Z.inj_xO, IH, Pos2Z.inj_succ, Z.pow_succ_r; lia.
Qed.

(** A mantissa aligned to a smaller exponent is the same number. *)
Lemma shl_align_fst (m : positive) (e e' : Z) :
  e' <= e → Zpos (fst (shl_align m e e')) = Zpos m * 2 ^ (e - e').
Proof.
  intros Hle. unfold shl_align.
  destruct (e' - e) as [|d|d] eqn:Hd; cbn [fst]; try lia.
  - replace (e - e') with 0 by lia. lia.
  - rewrite iter_xO. f_equal. f_equal. lia.
Qed.

(** Of two canonical mantissas, the one with the smaller exponent is the
    smaller number. *)
Lemma canonical_exponent_lt (m1 m2 : positive) (e1 e2 : Z) :
  canonical_mantissa F64.prec F64.emax m1 e1 = true →
  canonical_mantissa F64.prec F64.emax m2 e2 = true →
  e1 < e2 →
  Zpos m1 < Zpos m2 * 2 ^ (e2 - e1).
Proof.
  unfold canonical_mantissa, fexp, emin, F64.prec, F64.emax.
  rewrite (digits2_pos_size m1), (digits2_pos_size m2). intros H1%Z.eqb_eq H2%Z.eqb_eq Hlt.
  assert (Z.pos (Pos.size m2) = 53) as Hs2 by lia.
  assert (Z.pos (Pos.size m1) <= 53) as Hs1 by lia.
  pose proof (Pos.size_gt m1) as Hgt.
  pose proof (Pos.size_le m2) as Hle.
  apply Pos2Z.pos_lt_pos in Hgt. apply Pos2Z.pos_le_pos in Hle.
  rewrite Pos2Z.inj_pow in Hgt, Hle. rewrite Hs2 in Hle.
  assert (2 ^ Z.pos (Pos.size m1) <= 2 ^ 53) as Hpow
    by (apply Z.pow_le_mono_r; lia).
  assert (2 ^ 1 <= 2 ^ (e2 - e1)) as Hshift
    by (apply Z.pow_le_mono_r; lia).
  change (2 ^ 1) with 2 in Hshift.
  rewrite Pos2Z.inj_xO in Hle. nia.
Qed.

Lemma binary_round_aux_sign (m e : Z) (l : location) :
  signbit (binary_round_aux F64.prec F64.emax false m e l) = false.
Proof.
  unfold binary_round_aux.
  destruct (shr_fexp _ _ _ _ _) as [mrs' e'].
  destruct (shr_fexp _ _ _ _ _) as [mrs'' e''].
  destruct (shr_m mrs''); [done| |done].
  by destruct (_ <=? _).
Qed.

Lemma binary_normalize_sign (m e : Z) :
  0 < m → signbit (binary_normalize F64.prec F64.emax m e false) = false.
Proof.
  intros Hm. destruct m as [|p|p]; try lia.
  unfold binary_normalize, binary_round.
  destruct (shl_align _ _ _) as [mz ez]. apply binary_round_aux_sign.
Qed.

(** The difference of a float and a smaller one is not negative. *)
Lemma sub_sign_of_gt (x y : F64.float) :
  F64.valid x = true → F64.valid y = true →
  F64.ltb y x = true → signbit (F64.sub x y) = false.
Proof.
  unfold F64.valid, F64.ltb, SFltb, F64.sub.
  destruct x as [sx|sx| |sx mx ex], y as [sy|sy| |sy my ey];
    cbn [valid_binary SFcompare SFsub signbit];
    try (destruct sx); try (destruct sy); try done.
  all: unfold bounded; intros [Hx _]%andb_true_iff [Hy _]%andb_true_iff.
  all: intros Hcmp; apply binary_normalize_sign; cbn [cond_Zopp].
  - (* both negative *)
    destruct (ey ?= ex) eqn:He; try done.
    + apply Z.compare_eq in He as ->. rewrite Z.min_id.
      rewrite !shl_align_fst, Z.sub_diag, Z.pow_0_r by lia.
      destruct (Pos.compare_cont Eq my mx) eqn:Hm; try done.
      change (Pos.compare_cont Eq my mx) with (my ?= mx)%positive in Hm.
      apply Pos.compare_gt_iff in Hm. lia.
    + apply Z.compare_gt_iff in He. rewrite Z.min_l by lia.
      rewrite !shl_align_fst, Z.sub_diag, Z.pow_0_r by lia.
      pose proof (canonical_exponent_lt mx my ex ey Hx Hy He). nia.
  - (* x positive, y negative *)
    lia.
  - (* both positive *)
    destruct (ey ?= ex) eqn:He; try done.
    + apply Z.compare_eq in He as ->. rewrite Z.min_id.
      rewrite !shl_align_fst, Z.sub_diag, Z.pow_0_r by lia.
      change (Pos.compare_cont Eq my mx) with (my ?= mx)%positive in Hcmp.
      destruct (my ?= mx)%positive eqn:Hm; try done.
      apply Pos2Z.pos_lt_pos in Hm. lia.
    + change (ey < ex) in He. rewrite Z.min_r by lia.
      rewrite !shl_align_fst, Z.sub_diag, Z.pow_0_r by lia.
      pose proof (canonical_exponent_lt my mx ey ex Hy Hx He). nia.
Qed.

Lemma string_of_N_no_sign (n : N) (rest : string) :
  String.prefix "-" (F64.string_of_N n +:+ rest) = false.
Proof.
  unfold F64.string_of_N, NilZero.string_of_uint.
  by destruct (N.to_uint n).
Qed.

(** A float that is not negative is printed without a minus sign. *)
Lemma format_2f_no_sign (x : F64.float) :
  signbit x = false → String.prefix "-" (F64.format_2f x) = false.
Proof.
  destruct x as [[]|[]| |[] m e]; cbn [signbit]; intros H; try done.
  cbn [F64.format_2f]. unfold F64.fixed2.
  apply (string_of_N_no_sign (F64.cents m e / 100)).
Qed.

End Shortfall.

(** X12: when the price is above the target, the shortfall
    [price - expected_price] of two doubles is not negative, and the line
    that reports it shows it without a minus sign. *)
Theorem X12_shortfall_is_not_negative (w : World) (config : Config)
    (t : trace) (title : option string) (price : F64.float) :
  get_product_info w config = (t, Ok (title, price)) →
  F64.valid price = true →
  F64.valid (expected_price config) = true →
  F64.ltb (expected_price config) price = true →
  signbit (F64.sub price (expected_price config)) = false
  ∧ ∃ text,
      last (printed (check_price_and_notify w config).1)
        = Some (LF +:+ "Price is still above target by $" +:+ text)
      ∧ String.prefix "-" text = false.
Proof.
  intros Hinfo Hprice Htarget Hgt.
  pose proof (sub_sign_of_gt _ _ Hprice Htarget Hgt) as Hsign.
  split; [done|].
  exists (F64.format_2f (F64.sub price (expected_price config))).
  split; [|by apply format_2f_no_sign].
  rewrite (check_not_triggered w config t title price Hinfo
             (ltb_not_leb _ _ Hgt)).
  by rewrite (lookup_trace_eq w config t _ Hinfo).
Qed.

Lemma X12_witness_50_01 :
  signbit (F64.sub f50_01 (expected_price (sample_config f50_00))) = false
  ∧ ∃ text,
      last (printed (check_price_and_notify
                       (world_priced f50_01 (Ok "SM1") (Ok tt))
                       (sample_config f50_00)).1)
        = Some (LF +:+ "Price is still above target by $" +:+ text)
      ∧ String.prefix "-" text = false.
Proof.
  apply (X12_shortfall_is_not_negative
           (world_priced f50_01 (Ok "SM1") (Ok tt)) (sample_config f50_00)
           [Lookup (lookup_request_of (sample_config f50_00))]
           (Some "Widget") f50_01);
    vm_compute; reflexivity.
Defined.

(** X13: a price that compares equal to the target triggers the
    notifications, and every price that is a number compares equal to
    itself: the threshold is inclusive for every target, not only for
    50.00. *)
Theorem X13_price_equal_to_target_notifies (w : World) (config : Config)
    (t : trace) (title : option string) (price : F64.float) :
  get_product_info w config = (t, Ok (title, price)) →
  SFeqb price (expected_price config) = true →
  sms_calls (check_price_and_notify w config).1
    = [sms_request_of config (notification_msg title price)]
  ∧ smtp_calls (check_price_and_notify w config).1
    = [smtp_request_of config title price]
  ∧ (∀ x, is_nan x = false → SFeqb x x = true).
Proof.
  intros Hinfo Heq.
  assert (F64.leb price (expected_price config) = true) as Hle.
  { revert Heq. unfold SFeqb, F64.leb, SFleb.
    by destruct (SFcompare price (expected_price config)) as [[]|]. }
  destruct (triggered_calls w config t title price Hinfo Hle) as [-> ->].
  split; [done|]. split; [done|].
  intros x Hx. unfold SFeqb.
    destruct x as [s|s| |s m e]; cbn; try done; try (by destruct s).
    rewrite Z.compare_refl, Pos.compare_cont_refl. by destruct s.
Qed.

Lemma X13_witness_boundary :
  sms_calls (check_price_and_notify (world_priced f49_99 (Ok "SM1") (Ok tt))
               (sample_config f49_99)).1
    = [sms_request_of (sample_config f49_99) (notification_msg (Some "Widget") f49_99)].
Proof.
  exact (proj1 (X13_price_equal_to_target_notifies
                  (world_priced f49_99 (Ok "SM1") (Ok tt))
                  (sample_config f49_99)
                  [Lookup (lookup_request_of (sample_config f49_99))]
                  (Some "Widget") f49_99 eq_refl eq_refl)).
Defined.

(** X14: no exception escapes [main]: whatever the environment and the
    collaborators, [main] either returns or raises [SystemExit(1)], and in
    the second case the last thing it did was to print a diagnostic. *)
Theorem X14_main_returns_or_exits_with_1 (w : World) :
  (main w).2 = Ok tt
  ∨ ((main w).2 = Error (SystemExit 1)
     ∧ ∃ before e, (main w).1 = before ++ diagnostic e
                   ∧ diagnostic e ≠ []
                   ∧ printed (diagnostic e) ≠ []).
Proof.
  rewrite main_cases. cbn zeta.
  destruct (from_env w ≫= λ config, check_price_and_notify w config)
    as [t [[]|[e|c]]] eqn:Hbody; cbn [fst snd].
  - by left.
  - right. split; [done|]. exists t, e. split; [done|].
    unfold diagnostic. by destruct (isinstance e KeyError).
  - exfalso.
    destruct (from_env w) as [t0 [config|r]] eqn:Hcfg.
    + destruct (get_product_info w config) as [t1 [[title price]|r]] eqn:Hi.
      * pose proof (check_returns w config t1 title price Hi) as Hret.
        revert Hbody. unfold mbind, M_bind.
        destruct (check_price_and_notify w config) as [t2 r2].
        cbn in Hret. by subst r2.
      * destruct (get_product_info_raised w config t1 r Hi) as [e ->].
        revert Hbody. unfold mbind, M_bind.
        by rewrite (check_lookup_failed w config t1 _ Hi).
    + destruct (from_env_raised w t0 r Hcfg) as [e ->].
      revert Hbody. by unfold mbind, M_bind.
Qed.

(** X15: every run that loads its configuration makes exactly one product
    lookup, whatever happens afterwards: for the item AMAZON_PRODUCT_ID,
    with the access key, the secret key and the associate tag of the
    environment, in the region AMAZON_REGION, or "US" when that variable
    is not set. *)
Theorem X15_one_lookup_with_the_credentials_of_the_environment (w : World)
    (config : Config) :
  from_env w = ([], Ok config) →
  ∃ req,
    lookup_calls (main w).1 = [req]
    ∧ environ w !! "AMAZON_ACCESS_KEY" = Some (lookup_access_key req)
    ∧ environ w !! "AMAZON_SECRET_KEY" = Some (lookup_secret_key req)
    ∧ environ w !! "AMAZON_ASSOCIATE_TAG" = Some (lookup_associate_tag req)
    ∧ environ w !! "AMAZON_PRODUCT_ID" = Some (lookup_item_id req)
    ∧ lookup_region req
      = match environ w !! "AMAZON_REGION" with
        | Some region => region
        | None => "US"
        end.
Proof.
  intros Hcfg.
  destruct (main_calls w) as (-> & _ & _).
  rewrite Hcfg. cbn [snd].
  destruct (from_env_inv w [] config Hcfg) as (_ & Hall & s & _ & _ & Hconfig).
  assert (∀ key, key ∈ required_keys →
            environ w !! key = Some (default "" (environ w !! key))) as Hval.
  { intros key Hkey. by destruct (Hall key Hkey) as [v ->]. }
  eexists. split; [reflexivity|].
  rewrite Hconfig.
  cbn [lookup_request_of environ_config lookup_access_key lookup_secret_key
       lookup_associate_tag lookup_item_id lookup_region amazon_access_key
       amazon_secret_key amazon_associate_tag amazon_region product_id].
  repeat
    (split;
     [ apply Hval; unfold required_keys;
       repeat first [ apply list_elem_of_here | apply list_elem_of_further ]
     |]).
  reflexivity.
Qed.

Lemma X15_witness_sample :
  ∃ req,
    lookup_calls (main world_lookup_error).1 = [req]
    ∧ lookup_item_id req = "B00EXAMPLE" ∧ lookup_region req = "US".
Proof.
  destruct (X15_one_lookup_with_the_credentials_of_the_environment
              world_lookup_error (sample_config f50_00))
    as (req & Hreq & _ & _ & _ & Hid & Hregion).
  - vm_compute. reflexivity.
  - exists req. split; [exact Hreq|].
    revert Hid Hregion. vm_compute. intros [= <-] ->. split; reflexivity.
Defined.

(** X16: a title object whose display value is [None] is not detected:
    the lookup returns [None] as the title, and a triggered run goes on,
    prints "Product: None", sends the SMS "Price Alert: None is now ..."
    and the email, and exits with status 0. *)
Theorem X16_title_without_display_value_is_not_detected (w : World)
    (config : Config) (p : Product) (ps : list Product) (price : F64.float) :
  from_env w = ([], Ok config) →
  amazon_get_items w (lookup_request_of config) = Ok (p :: ps) →
  title_of p = Some None →
  amount_of p = Some (PyFloat price) →
  F64.leb price (expected_price config) = true →
  get_product_info w config
    = ([Lookup (lookup_request_of config)], Ok (None, price))
  ∧ Stdout "Product: None" ∈ (main w).1
  ∧ (∃ sms, sms_calls (main w).1 = [sms]
            ∧ sms_body sms
              = "Price Alert: None is now $" +:+ F64.format_2f price +:+ "!")
  ∧ length (smtp_calls (main w).1) = 1%nat
  ∧ exit_status (main w) = 0.
Proof.
  intros Hcfg Hget Htitle Hamount Hle.
  assert (get_product_info w config
          = ([Lookup (lookup_request_of config)], Ok (None, price))) as Hinfo.
  { unfold get_product_info. rewrite Hget. revert Htitle Hamount.
    unfold title_of, amount_of. destruct p as [info product_offers]. cbn.
    destruct info as [[[[name]|]]|]; cbn; try done. intros [= ->].
    destruct product_offers as [[[[|[[[value]|]] ls]|]]|]; cbn; try done.
    by intros [= ->]. }
  split; [done|].
  destruct (main_calls w) as (_ & Hsms & Hsmtp).
  rewrite Hcfg in Hsms, Hsmtp. cbn [snd] in Hsms, Hsmtp.
  rewrite Hinfo in Hsms, Hsmtp. cbn [snd] in Hsms, Hsmtp.
  rewrite Hle in Hsms, Hsmtp. rewrite Hsms, Hsmtp.
  split; [|split; [by eexists|split; [done|]]].
  - rewrite (main_loaded w config Hcfg).
    rewrite (check_triggered w config _ None price Hinfo Hle).
    cbn [fst snd report str_ default from_option app].
    do 2 apply list_elem_of_further. apply list_elem_of_here.
  - rewrite (main_loaded w config Hcfg). unfold exit_status.
    by rewrite !(check_returns w config _ None price Hinfo).
Qed.

Lemma X16_witness_no_display_value :
  Stdout "Product: None"
    ∈ (main (sample_world (sample_environ "50.00")
               (Ok [ {| item_info :=
                          Some {| title := Some {| display_value := None |} |};
                        offers := offers (sample_product "" (PyFloat f49_99))
                     |} ])
               (Ok "SM1") (Ok tt))).1
  ∧ exit_status
      (main (sample_world (sample_environ "50.00")
               (Ok [ {| item_info :=
                          Some {| title := Some {| display_value := None |} |};
                        offers := offers (sample_product "" (PyFloat f49_99))
                     |} ])
               (Ok "SM1") (Ok tt))) = 0.
Proof.
  destruct (X16_title_without_display_value_is_not_detected
              (sample_world (sample_environ "50.00")
                 (Ok [ {| item_info :=
                            Some {| title := Some {| display_value := None |} |};
                          offers := offers (sample_product "" (PyFloat f49_99))
                       |} ])
                 (Ok "SM1") (Ok tt))
              (sample_config f50_00)
              {| item_info :=
                   Some {| title := Some {| display_value := None |} |};
                 offers := offers (sample_product "" (PyFloat f49_99)) |}
              [] f49_99)
    as (_ & Hline & _ & _ & Hexit); try (vm_compute; reflexivity).
  exact (conj Hline Hexit).
Defined.
